(** * YCast: a vTuner directory emulation (ycast.py)

    Shallow embedding of the station catalogue ([StationSource]) and of the
    request handler ([YCastHandler]) of ycast.py, with the properties of the
    specification stated against them.

    Modelling conventions.
    - Python [str] values are Rocq strings (byte strings, UTF-8); Python
      [int] is [Z].
    - A Python [dict] loaded from YAML keeps insertion order, so a mapping
      is the list of its (key, value) items in stored order.  Keys of a
      [dict] are distinct.
    - A raised exception is the [Raise] outcome of a computation; what is
      not caught by an [except] clause propagates.
    - Library functions whose full behaviour is outside the program
      ([int], [str.lower], [urllib.parse.quote]/[unquote], the HTTP request
      of urllib3) are fields of the [Runtime] class; every theorem holds for
      every runtime.  A request is given by [self.path] together with what
      [urlsplit] and [parse_qs] make of it.
    - A configuration is a tree of mappings with string keys whose values
      are mappings or strings, as stations.yml is written; other YAML
      values (numbers, sequences, null) and YAML aliases that share one
      mapping between two keys are outside the model.
    - Of the log only the error lines are kept; the [logger.info] lines of
      [do_GET] and [write_message] are not recorded. *)

From Stdlib Require Import ZArith String Ascii List Sorted Permutation Lia.
From Stdlib Require Import DecimalString.
From stdpp Require Import gmap strings list fin_maps.

Set Warnings "-register-all".
Local Open Scope string_scope.
Local Open Scope list_scope.
Local Open Scope Z_scope.

(** ** Exceptions and outcomes *)

Inductive exn : Type :=
  | KeyError
  | IndexError
  | ValueError
  | TypeError
  | AttributeError
  | OSError          (* PermissionError, IsADirectoryError, ... *)
  | YAMLError
  | HTTPError        (* what urllib3 raises from urlopen *)
  | SystemExit (code : Z).

Inductive outcome (A : Type) : Type :=
  | Ok (a : A)
  | Raise (e : exn).
Arguments Ok {A} a.
Arguments Raise {A} e.

#[global] Instance outcome_ret : MRet outcome := λ A, Ok.
#[global] Instance outcome_bind : MBind outcome := λ A B f m,
  match m with
  | Ok a => f a
  | Raise e => Raise e
  end.

(** [try: body / except KeyError: handler] *)
Definition except_KeyError {A} (body : outcome A) (handler : outcome A) : outcome A :=
  match body with
  | Raise KeyError => handler
  | r => r
  end.

(** ** The catalogue tree

    A value stored in the station dictionary: a nested [dict], a station
    string as written in stations.yml, or the [(station_id, url)] tuple
    that [walktree] puts in its place. *)

Inductive node : Type :=
  | Dict (items : list (string * node))
  | Str (data : string)
  | Tup (station_id : Z) (url : string).

Abbreviation index := (gmap Z (string * string)).

Record StationSource : Type := mkSource {
  source : string;
  stations : node;
  stations_by_id : gmap Z (string * string);
}.

(** [StationSource.__init__]: both dictionaries start empty; only the path
    of the configuration is chosen here, nothing is read. *)
Definition StationSource_init (isfile : bool) (ycast_dir src : string) : StationSource :=
  {| source := if isfile then src else ycast_dir +:+ "/stations.yml";
     stations := Dict [];
     stations_by_id := ∅ |}.

(** [walktree] of [set_station_by_id].  [walk_items] is its loop over
    [directory.items()], given the recursive call on a nested dictionary;
    [walk_dict] is that call.  The assignment
    [directory[key] = (station_id, data)] rewrites the item being visited
    (keys are distinct). *)
Definition walk_items (walk : node → Z → index → node * Z * index)
  : list (string * node) → Z → index → list (string * node) * Z * index :=
  fix loop directory station_id by_id :=
    match directory with
    | [] => ([], station_id, by_id)
    | (key, data) :: rest =>
        let '(data', station_id', by_id') :=
          match data with
          | Dict _ => walk data station_id by_id
          | Str s => (Tup station_id s, station_id + 1, <[station_id := (key, s)]> by_id)
          | Tup _ _ => (data, station_id, by_id)
          end in
        let '(rest', station_id'', by_id'') := loop rest station_id' by_id' in
        ((key, data') :: rest', station_id'', by_id'')
    end.

Fixpoint walk_dict (directory : node) (station_id : Z) (by_id : index) {struct directory}
  : node * Z * index :=
  match directory with
  | Dict items =>
      let '(items', station_id', by_id') := walk_items walk_dict items station_id by_id in
      (Dict items', station_id', by_id')
  | _ => (directory, station_id, by_id)
  end.

Definition walktree : list (string * node) → Z → index → list (string * node) * Z * index :=
  walk_items walk_dict.

(** [set_station_by_id]: [walktree(self.stations)] with [station_id = 1];
    [self.stations_by_id] is updated in place, never cleared.  On a value
    that is not a [dict], [directory.items()] raises [AttributeError]. *)
Definition set_station_by_id (self : StationSource) : StationSource * outcome unit :=
  match stations self with
  | Dict items =>
      let '(items', _, by_id') := walktree items 1 (stations_by_id self) in
      ({| source := source self; stations := Dict items'; stations_by_id := by_id' |}, Ok tt)
  | _ => (self, Raise AttributeError)
  end.

(** What [open(self.source)] followed by [yaml.load] yields. *)
Inductive load_result : Type :=
  | FileNotFound            (* [open] raises FileNotFoundError *)
  | Unreadable              (* [open] raises another OSError *)
  | Malformed               (* [yaml.load] raises YAMLError *)
  | Loaded (v : node).      (* the value of the YAML document *)

Inductive log_entry : Type :=
  | LogError (msg : string).

Definition MSG_NOT_FOUND : string :=
  "ERROR: Station configuration not found. Please supply a proper stations.yml.".

(** [get_stations]: the new state, the lines logged, and the returned
    [self.stations] or the exception that leaves the method. *)
Definition get_stations (file : load_result) (self : StationSource)
  : StationSource * list log_entry * outcome node :=
  match file with
  | FileNotFound => (self, [LogError MSG_NOT_FOUND], Raise (SystemExit 1))
  | Unreadable => (self, [], Raise OSError)
  | Malformed => (self, [], Raise YAMLError)
  | Loaded v =>
      let self1 := {| source := source self; stations := v;
                      stations_by_id := stations_by_id self |} in
      let '(self2, r) := set_station_by_id self1 in
      (self2, [], _ ← r; Ok (stations self2))
  end.

(** Pre-order list of the leaves of a mapping, each with its key. *)
Definition leaves_items (leaves_of : node → list (string * node))
  : list (string * node) → list (string * node) :=
  fix loop items :=
    match items with
    | [] => []
    | (key, data) :: rest =>
        match data with
        | Dict _ => leaves_of data
        | _ => [(key, data)]
        end ++ loop rest
    end.

Fixpoint leaves_of (n : node) {struct n} : list (string * node) :=
  match n with
  | Dict items => leaves_items leaves_of items
  | _ => []
  end.

Definition leaves : list (string * node) → list (string * node) := leaves_items leaves_of.

(** The stations of a configuration, (name, url) in document order, and
    the stations of a walked catalogue with their ids. *)
Definition config_stations (items : list (string * node)) : list (string * string) :=
  omap (λ kv, match kv.2 with Str s => Some (kv.1, s) | _ => None end) (leaves items).

Definition catalog_stations (items : list (string * node)) : list (Z * (string * string)) :=
  omap (λ kv, match kv.2 with Tup i u => Some (i, (kv.1, u)) | _ => None end) (leaves items).

(** A configuration as YAML loads it: mappings and strings only. *)
Fixpoint is_config_node (n : node) {struct n} : bool :=
  match n with
  | Dict items => forallb (λ kv, is_config_node kv.2) items
  | Str _ => true
  | Tup _ _ => false
  end.

Definition is_config (items : list (string * node)) : bool :=
  forallb (λ kv, is_config_node kv.2) items.

(** Numbering a list of stations from [station_id] on, and entering the
    numbered stations into an index. *)
Fixpoint number (station_id : Z) (l : list (string * string)) : list (Z * (string * string)) :=
  match l with
  | [] => []
  | s :: rest => (station_id, s) :: number (station_id + 1) rest
  end.

Definition enter (by_id : index) (l : list (Z * (string * string))) : index :=
  foldl (λ m e, <[e.1 := e.2]> m) by_id l.

(** ** Python built-ins used by the handler *)

(** [s.startswith(p)] *)
Fixpoint startswith (s p : string) {struct p} : bool :=
  match p, s with
  | EmptyString, _ => true
  | String a p', String b s' => Ascii.eqb a b && startswith s' p'
  | String _ _, EmptyString => false
  end.

(** [needle in s] *)
Fixpoint contains (needle s : string) : bool :=
  startswith s needle ||
  match s with
  | EmptyString => false
  | String _ s' => contains needle s'
  end.

Fixpoint str_drop (n : nat) (s : string) : string :=
  match n, s with
  | S n', String _ s' => str_drop n' s'
  | _, _ => s
  end.

(** First occurrence of [sep] in [s]: the text before it and after it. *)
Fixpoint str_find (sep s : string) : option (string * string) :=
  if startswith s sep then Some (EmptyString, str_drop (String.length sep) s)
  else match s with
       | EmptyString => None
       | String c s' =>
           match str_find sep s' with
           | Some (before, after) => Some (String c before, after)
           | None => None
           end
       end.

(** [s.partition(sep)] *)
Definition partition (s sep : string) : string * string * string :=
  match str_find sep s with
  | Some (before, after) => (before, sep, after)
  | None => (s, EmptyString, EmptyString)
  end.

(** [s.split(sep)] for a one-character separator: never the empty list. *)
Fixpoint split (s : string) (sep : ascii) : list string :=
  match s with
  | EmptyString => [EmptyString]
  | String c s' =>
      if Ascii.eqb c sep then EmptyString :: split s' sep
      else match split s' sep with
           | head :: tail => String c head :: tail
           | [] => [String c EmptyString]
           end
  end.

(** [str(n)] for an integer. *)
Definition str (n : Z) : string := NilZero.string_of_int (Z.to_int n).

(** [l[start:stop]]: a negative bound counts from the end, and both bounds
    are clipped to the length. *)
Definition clip (len i : Z) : Z :=
  if i <? 0 then Z.max (i + len) 0 else Z.min i len.

Definition py_slice {A} (l : list A) (start stop : Z) : list A :=
  let len := Z.of_nat (length l) in
  let lo := clip len start in
  let hi := clip len stop in
  take (Z.to_nat (hi - lo)) (drop (Z.to_nat lo) l).

(** Library functions of the Python runtime and of urllib. *)
Inductive redirect : Type :=
  | Location (url : string)   (* a redirect status with a Location header *)
  | NoLocation                (* a redirect status without one: [None] *)
  | NotRedirect.              (* any other status: [False] *)

Class Runtime : Type := {
  py_int : string → option Z;            (* [int(s)]; [None] is ValueError *)
  str_lower : string → string;           (* [str.lower] *)
  quote : string → string;               (* [urllib.parse.quote] *)
  unquote : string → string;             (* [urllib.parse.unquote] *)
  urlopen : string → outcome redirect;   (* GET without following redirects,
                                            then [get_redirect_location()] *)
}.

(** [sorted(names, key=f)]: a stable sort on the keys, compared as Python
    compares strings (by code point, which is byte order in UTF-8). *)
Fixpoint insert_by (f : string → string) (x : string) (l : list string) : list string :=
  match l with
  | [] => [x]
  | y :: l' => if String.leb (f x) (f y) then x :: l else y :: insert_by f x l'
  end.

Definition sorted_by (f : string → string) (l : list string) : list string :=
  foldr (insert_by f) [] l.


Section Handler.
Context {rt : Runtime}.

Definition VTUNER_DNS : string := "http://radioyamaha.vtuner.com".
Definition VTUNER_INITURL : string := "/setupapp/Yamaha/asp/BrowseXML/loginXML.asp".
Definition VTUNER_STATURL : string := "/setupapp/Yamaha/asp/BrowseXML/statxml.asp".
Definition YCAST_LOCATION : string := "ycast".
Definition DEFAULTSTATION : string :=
  "Radio Paradise - auto:http://stream.radioparadise.com/mp3-192".

(** The [text] of an element: a string, or the [None] / [False] that
    [filter_url] can hand over. *)
Inductive text : Type :=
  | TStr (s : string)
  | TNone
  | TFalse.

Inductive xml : Type :=
  | Element (tag : string) (txt : text) (children : list xml).

Definition SubElement (parent : xml) (child : xml) : xml :=
  match parent with
  | Element tag txt children => Element tag txt (children ++ [child])
  end.

(** What the handler sends: [write_message] (status 200, Content-type
    text/html, the XML prolog when [add_xml_header], the serialised
    document) or [send_error]. *)
Inductive response : Type :=
  | Reply (add_xml_header : bool) (body : xml)
  | SendError (code : Z).

Definition filter_url (url : string) : outcome text :=
  if contains "streamtheworld.com/" url then
    resp ← urlopen url;
    Ok (match resp with
        | Location newurl => TStr newurl
        | NoLocation => TNone
        | NotRedirect => TFalse
        end)
  else Ok (TStr url).

(** *** StationSource lookups *)

(** [d[key]] *)
Fixpoint dict_get (items : list (string * node)) (key : string) : option node :=
  match items with
  | [] => None
  | (k, v) :: rest => if String.eqb k key then Some v else dict_get rest key
  end.

Definition getitem (obj : node) (key : string) : outcome node :=
  match obj with
  | Dict items =>
      match dict_get items key with
      | Some v => Ok v
      | None => Raise KeyError
      end
  | Str _ | Tup _ _ => Raise TypeError   (* indices must be integers *)
  end.

(** [len(obj)]; of a string, its length in bytes. *)
Definition len (obj : node) : Z :=
  match obj with
  | Dict items => Z.of_nat (length items)
  | Str s => Z.of_nat (String.length s)
  | Tup _ _ => 2
  end.

Fixpoint chars (s : string) : list string :=
  match s with
  | EmptyString => []
  | String c s' => String c EmptyString :: chars s'
  end.

(** [sorted(obj, key=str.lower)]: over the keys of a [dict] or the
    characters of a [str]; the first element of a tuple is an [int], on
    which [str.lower] raises. *)
Definition sorted_lower (obj : node) : outcome (list string) :=
  match obj with
  | Dict items => Ok (sorted_by str_lower items.*1)
  | Str s => Ok (sorted_by str_lower (chars s))
  | Tup _ _ => Raise TypeError
  end.

Fixpoint by_hierarchy_from (current_dir : node) (hierarchy : list string) : outcome node :=
  match hierarchy with
  | [] => Ok current_dir
  | category :: rest =>
      next ← getitem current_dir category;
      by_hierarchy_from next rest
  end.

Definition by_hierarchy (self : StationSource) (long_category : string) : outcome node :=
  by_hierarchy_from (stations self) (split long_category "|").

Definition by_id (self : StationSource) (station_id : Z) : outcome (string * string) :=
  match stations_by_id self !! station_id with
  | Some entry => Ok entry
  | None => Raise KeyError
  end.

(** *** YCastHandler *)

Definition create_root : xml := Element "ListOfItems" TNone [].

Definition leaf (tag : string) (s : string) : xml := Element tag (TStr s) [].

(** The [Item] elements built by [add_dir] and [add_station]. *)
Definition dir_item (name dest dircount : string) : xml :=
  Element "Item" TNone
    [leaf "ItemType" "Dir"; leaf "Title" name; leaf "UrlDir" dest;
     leaf "DirCount" dircount].

Definition station_item (name : string) (station_id : string) (station_url : text) : xml :=
  Element "Item" TNone
    [leaf "ItemType" "Station"; leaf "StationName" name;
     leaf "StationId" station_id; Element "StationUrl" station_url []].

Definition add_dir (root : xml) (name dest dircount : string) : xml :=
  SubElement root (dir_item name dest dircount).

Definition add_station (root : xml) (name url : string) (station_id : Z) : outcome xml :=
  station_url ← filter_url url;
  Ok (SubElement root (station_item name (str station_id) station_url)).

Definition write_message (doc : xml) (add_xml_header : bool) : outcome response :=
  Ok (Reply add_xml_header doc).

(** A [for] loop that extends the document, stopping at the first
    exception. *)
Fixpoint for_each {A} (body : xml → A → outcome xml) (doc : xml) (l : list A) : outcome xml :=
  match l with
  | [] => Ok doc
  | x :: rest => doc' ← body doc x; for_each body doc' rest
  end.

Definition category_url (category : string) : string :=
  VTUNER_DNS +:+ "/" +:+ YCAST_LOCATION +:+ "?category=" +:+ quote category.

Definition reply_with_dir (stations : node) (start max_size : Z) : outcome response :=
  let doc := SubElement create_root (leaf "DirCount" "9") in
  names ← sorted_lower stations;
  doc ← for_each
          (λ doc category,
             entry ← getitem stations category;
             Ok (add_dir doc category (category_url category) (str (len entry))))
          doc (py_slice names start (start + max_size));
  write_message doc true.

Definition reply_with_mixed_list (self : StationSource) (hierarchy : string)
    (start max_size : Z) : outcome response :=
  station_list ← by_hierarchy self hierarchy;
  names ← sorted_lower station_list;
  doc ← for_each
          (λ doc item,
             entry ← getitem station_list item;
             match entry with
             | Dict _ =>
                 Ok (add_dir doc item (category_url (hierarchy +:+ "|" +:+ item))
                       (str (len entry)))
             | Tup station_id station_url => add_station doc item station_url station_id
             | Str _ => Ok doc
             end)
          create_root (py_slice names start (start + max_size));
  write_message doc true.

(** [try: self.reply_with_mixed_list(...) / except KeyError: self.send_error(404)] *)
Definition try_mixed_list (self : StationSource) (hierarchy : string)
    (start max_size : Z) : outcome response :=
  except_KeyError (reply_with_mixed_list self hierarchy start max_size) (Ok (SendError 404)).

(** A request as the handler sees it: [self.path], the path component of
    [urlsplit(self.path)] and [parse_qs] of its query component. *)
Record request : Type := mkRequest {
  path : string;
  url_path : string;
  url_query : gmap string (list string);
}.

(** [url_query_split[key][0]] *)
Definition query_get (req : request) (key : string) : outcome string :=
  match url_query req !! key with
  | None => Raise KeyError
  | Some [] => Raise IndexError
  | Some (v :: _) => Ok v
  end.

(** [int(url_query_split[key][0])] *)
Definition query_int (req : request) (key : string) : outcome Z :=
  v ← query_get req key;
  match py_int v with
  | Some n => Ok n
  | None => Raise ValueError
  end.

(** The branches of [do_GET], in the order of its [if]/[elif] chain. *)
Inductive operation : Type :=
  | InitUrl          (* url_split.path == VTUNER_INITURL *)
  | StationDetail    (* self.path.startswith(VTUNER_STATURL) *)
  | AliasRoot        (* '/', '/ycast', '/ycast/', or a longer init path *)
  | CategoryListing  (* self.path.startswith('/ycast?') *)
  | Unrecognized.

Definition classify (req : request) : operation :=
  if String.eqb (url_path req) VTUNER_INITURL then InitUrl
  else if startswith (path req) VTUNER_STATURL then StationDetail
  else if String.eqb (path req) "/"
          || String.eqb (path req) ("/" +:+ YCAST_LOCATION)
          || String.eqb (path req) ("/" +:+ YCAST_LOCATION +:+ "/")
          || startswith (path req) VTUNER_INITURL then AliasRoot
  else if startswith (path req) ("/" +:+ YCAST_LOCATION +:+ "?") then CategoryListing
  else Unrecognized.

(** The body of [do_GET] after [get_stations] has returned [stations]. *)
Definition dispatch (self : StationSource) (stations : node) (req : request)
  : outcome response :=
  match classify req with
  | InitUrl =>
      if decide (is_Some (url_query req !! "token")) then
        write_message (Element "EncryptedToken" (TStr "85d6fa40a9dcc906") []) false
      else
        start ← query_int req "start";
        size ← query_int req "howmany";
        reply_with_dir stations (start - 1) size
  | StationDetail =>
      station_id ← query_int req "id";
      '(station_id, station_name, station_url) ←
        except_KeyError
          ('(station_name, station_url) ← by_id self station_id;
           Ok (station_id, station_name, station_url))
          (let '(station_name, _, station_url) := partition DEFAULTSTATION "&" in
           Ok (999999, station_name, station_url));
      doc ← add_station create_root station_name station_url station_id;
      write_message doc true
  | AliasRoot => reply_with_dir stations 0 8
  | CategoryListing =>
      category ← query_get req "category";
      let hierarchy := unquote category in
      '(start, size) ←
        except_KeyError
          (start ← query_int req "start";
           size ← query_int req "howmany";
           Ok (start, size))
          (Ok (1, 8));
      try_mixed_list self hierarchy (start - 1) size
  | Unrecognized => Ok (SendError 404)
  end.

(** [do_GET]: the catalogue is loaded first, on every request.  The result
    is the state of [self.server.source] afterwards, the error lines
    logged, and the response sent or the exception that leaves the
    handler. *)
Definition do_GET (file : load_result) (self : StationSource) (req : request)
  : StationSource * list log_entry * outcome response :=
  let '(self', logged, r) := get_stations file self in
  (self', logged, stations ← r; dispatch self' stations req).

(** ** Notions of the specification *)



(** The items of a response, by name ([Title] or [StationName]), in the
    order of the document. *)
Definition children (doc : xml) : list xml :=
  match doc with Element _ _ c => c end.

Definition item_name (item : xml) : option string :=
  match item with
  | Element tag _ (_ :: Element _ (TStr name) _ :: _) =>
      if String.eqb tag "Item" then Some name else None
  | _ => None
  end.

Definition is_station_item (item : xml) : bool :=
  match item with
  | Element _ _ (Element _ (TStr kind) _ :: _) => String.eqb kind "Station"
  | _ => false
  end.

Definition listed (doc : xml) : list string := omap item_name (children doc).

(** A child that the category listing renders without an exception: a
    category, or a station whose url [filter_url] resolves. *)
Definition renderable (entry : node) : Prop :=
  match entry with
  | Dict _ => True
  | Tup _ station_url => ∃ t, filter_url station_url = Ok t
  | Str _ => False
  end.

(** The directory item that the root listing shows for [name]. *)
Definition dir_entry (items : list (string * node)) (name : string) : xml :=
  dir_item name (category_url name) (str (from_option len 0 (dict_get items name))).

(** [occurs needle s]: [needle] is a substring of [s]. *)
Definition occurs (needle s : string) : Prop :=
  ∃ before after, s = before +:+ needle +:+ after.

(** [root_request req start size]: [req] is a root listing with the
    1-based [start] and the [size] it asks for, the alias paths asking for
    the default window. *)
Inductive root_request (req : request) : Z → Z → Prop :=
  | init_listing start size :
      classify req = InitUrl →
      url_query req !! "token" = None →
      query_int req "start" = Ok start →
      query_int req "howmany" = Ok size →
      root_request req start size
  | alias_listing :
      classify req = AliasRoot →
      root_request req 1 8.

(** [category_request req category start size]: [req] is a category
    listing of [category]; without [start], or with a numeric [start] but
    without [howmany], the window is the default one. *)
Inductive category_request (req : request) (category : string) : Z → Z → Prop :=
  | category_window start size :
      classify req = CategoryListing →
      query_get req "category" = Ok category →
      query_int req "start" = Ok start →
      query_int req "howmany" = Ok size →
      category_request req category start size
  | category_no_start :
      classify req = CategoryListing →
      query_get req "category" = Ok category →
      url_query req !! "start" = None →
      category_request req category 1 8
  | category_no_howmany start :
      classify req = CategoryListing →
      query_get req "category" = Ok category →
      query_int req "start" = Ok start →
      url_query req !! "howmany" = None →
      category_request req category 1 8.


End Handler.

(** ** A concrete runtime, for evaluating the handler on examples

    Exact on ASCII text: [lower] maps A-Z to a-z, [dec_int] reads an
    optionally signed decimal numeral, [pct_quote] escapes every byte but
    letters, digits and [_.-~/], [pct_unquote] decodes [%XX]. *)

Definition lower_ascii (c : ascii) : ascii :=
  let n := nat_of_ascii c in
  if (65 <=? n)%nat && (n <=? 90)%nat then ascii_of_nat (n + 32) else c.

Fixpoint lower (s : string) : string :=
  match s with
  | EmptyString => EmptyString
  | String c s' => String (lower_ascii c) (lower s')
  end.

Definition digit_of (c : ascii) : option Z :=
  let n := nat_of_ascii c in
  if (48 <=? n)%nat && (n <=? 57)%nat then Some (Z.of_nat (n - 48)) else None.

Fixpoint dec_digits (acc : Z) (s : string) : option Z :=
  match s with
  | EmptyString => Some acc
  | String c s' =>
      match digit_of c with
      | Some d => dec_digits (10 * acc + d) s'
      | None => None
      end
  end.

Definition dec_int (s : string) : option Z :=
  match s with
  | EmptyString => None
  | String "-" (String c s') => Z.opp <$> dec_digits 0 (String c s')
  | String "-" EmptyString => None
  | _ => dec_digits 0 s
  end.

Definition hex_digit (n : nat) : ascii :=
  ascii_of_nat (if (n <? 10)%nat then 48 + n else 55 + n).

Definition unreserved (c : ascii) : bool :=
  let n := nat_of_ascii c in
  ((65 <=? n) && (n <=? 90) || (97 <=? n) && (n <=? 122) || (48 <=? n) && (n <=? 57)
   || (n =? 95) || (n =? 46) || (n =? 45) || (n =? 126) || (n =? 47))%nat.

Fixpoint pct_quote (s : string) : string :=
  match s with
  | EmptyString => EmptyString
  | String c s' =>
      if unreserved c then String c (pct_quote s')
      else let n := nat_of_ascii c in
           String "%" (String (hex_digit (n / 16)) (String (hex_digit (n mod 16)) (pct_quote s')))
  end.

Definition hex_value (c : ascii) : option nat :=
  let n := nat_of_ascii c in
  if (48 <=? n)%nat && (n <=? 57)%nat then Some (n - 48)%nat
  else if (65 <=? n)%nat && (n <=? 70)%nat then Some (n - 55)%nat
  else if (97 <=? n)%nat && (n <=? 102)%nat then Some (n - 87)%nat
  else None.

Fixpoint pct_unquote (s : string) : string :=
  match s with
  | EmptyString => EmptyString
  | String c s' =>
      let keep := String c (pct_unquote s') in
      if Ascii.eqb c "%" then
        match s' with
        | String h (String l s'') =>
            match hex_value h, hex_value l with
            | Some a, Some b =>
                String (ascii_of_nat (16 * a + b)) (pct_unquote s'')
            | _, _ => keep
            end
        | _ => keep
        end
      else keep
  end.

Definition example_runtime (net : string → outcome redirect) : Runtime :=
  {| py_int := dec_int; str_lower := lower; quote := pct_quote;
     unquote := pct_unquote; urlopen := net |}.

(** A network on which every request fails, one on which no request is
    answered with a redirect, and one that redirects every request. *)
Definition offline : string → outcome redirect := λ _, Raise HTTPError.
Definition no_redirect : string → outcome redirect := λ _, Ok NotRedirect.
Definition redirect_to (target : string) : string → outcome redirect :=
  λ _, Ok (Location target).

(** The catalogue of the specification's end-to-end example, ten and three
    empty categories, and a configuration with a station at the top
    level. *)
Definition example_config : list (string * node) :=
  [("News", Dict [("BBC", Str "BBC - auto:http://bbc/stream")]);
   ("Music", Dict [("Jazz FM", Str "Jazz - auto:http://jazz/stream")])].

Definition ten_config : list (string * node) :=
  [("BBC", Dict []); ("jazz", Dict []); ("Classic", Dict []); ("news", Dict []);
   ("Rock", Dict []); ("ambient", Dict []); ("Talk", Dict []); ("pop", Dict []);
   ("Metal", Dict []); ("folk", Dict [])].

Definition three_config : list (string * node) :=
  [("rock", Dict []); ("Jazz", Dict []); ("news", Dict [])].

Definition top_station_config : list (string * node) :=
  [("Paradise", Str "http://stream.radioparadise.com/mp3-192");
   ("News", Dict [("BBC", Str "BBC - auto:http://bbc/stream")])].

Definition fresh_source : StationSource := StationSource_init false "/opt/ycast" "stations.yml".

(** The source after a first load of [example_config]. *)
Definition example_source : StationSource :=
  (get_stations (Loaded (Dict example_config)) fresh_source).1.1.


(** A request: [self.path], the path of [urlsplit] and the items of
    [parse_qs]. *)
Definition get (p up : string) (q : list (string * list string)) : request :=
  {| path := p; url_path := up; url_query := list_to_map q |}.

(** ** Further notions: the walked catalogue *)

(** A catalogue as [walktree] leaves it: no station string is left, every
    leaf is a tuple. *)
Fixpoint is_catalog_node (n : node) {struct n} : bool :=
  match n with
  | Dict items => forallb (λ kv, is_catalog_node kv.2) items
  | Str _ => false
  | Tup _ _ => true
  end.

Definition is_catalog (items : list (string * node)) : bool :=
  forallb (λ kv, is_catalog_node kv.2) items.

(** The keys of every dictionary of the tree are distinct, as the keys of a
    Python [dict] are. *)
Fixpoint distinct_keys_node (n : node) {struct n} : bool :=
  match n with
  | Dict items =>
      bool_decide (NoDup items.*1) && forallb (λ kv, distinct_keys_node kv.2) items
  | _ => true
  end.

Definition distinct_keys (items : list (string * node)) : bool :=
  bool_decide (NoDup items.*1) && forallb (λ kv, distinct_keys_node kv.2) items.

Section Rendering.
Context {rt : Runtime}.

(** [rendered_as hierarchy items name item]: [item] is the element that a
    listing of the category [hierarchy], whose children are [items], shows
    for the child [name]. *)
Definition rendered_as (hierarchy : string) (items : list (string * node))
    (name : string) (item : xml) : Prop :=
  match dict_get items name with
  | Some (Dict sub) =>
      item = dir_item name (category_url (hierarchy +:+ "|" +:+ name))
               (str (Z.of_nat (length sub)))
  | Some (Tup station_id station_url) =>
      ∃ t, filter_url station_url = Ok t ∧ item = station_item name (str station_id) t
  | _ => False
  end.

End Rendering.

(** A category with a station of streamtheworld and one of another host. *)
Definition redirected_config : list (string * node) :=
  [("Rock",
    Dict [("KINK", Str "http://playerservices.streamtheworld.com/api/livestream-redirect/KINKFM.mp3");
          ("Paradise", Str "http://stream.radioparadise.com/mp3-192")])].

Definition redirected_source : StationSource :=
  (get_stations (Loaded (Dict redirected_config)) fresh_source).1.1.

(** ** [reply_with_station_list] *)

Section StationList.
Context {rt : Runtime}.

(** [station_id, station_url = entry]: a tuple gives its two fields; a
    [dict] is unpacked into its keys and a [str] into its characters,
    which must be two; [ValueError] otherwise.  The id is returned as
    [str(station_id)], which is what [add_station] uses of it. *)
Definition unpack_station (entry : node) : outcome (string * string) :=
  match entry with
  | Tup station_id station_url => Ok (str station_id, station_url)
  | Dict [(k1, _); (k2, _)] => Ok (k1, k2)
  | Str (String c1 (String c2 EmptyString)) =>
      Ok (String c1 EmptyString, String c2 EmptyString)
  | _ => Raise ValueError
  end.

Definition reply_with_station_list (station_list : node) (start max_size : Z)
  : outcome response :=
  names ← sorted_lower station_list;
  doc ← for_each
          (λ doc station,
             entry ← getitem station_list station;
             '(station_id, station_url) ← unpack_station entry;
             url ← filter_url station_url;
             Ok (SubElement doc (station_item station station_id url)))
          create_root (py_slice names start (start + max_size));
  write_message doc true.

End StationList.

(** ** The script *)

(** What can leave the [with YCastServer(...)] block, by the class that
    decides the [except] clause: PermissionError is a subclass of OSError. *)
Inductive raised : Type :=
  | RaisedOSError (strerror : string)         (* OSError, not PermissionError *)
  | RaisedPermissionError (strerror : string)
  | RaisedKeyboardInterrupt
  | RaisedSystemExit (code : Z)               (* [sys.exit] in a handler *)
  | RaisedOther.                              (* no clause applies *)

Inductive exception_class : Type :=
  | ClsOSError
  | ClsPermissionError
  | ClsKeyboardInterrupt.

Definition isinstance (e : raised) (cls : exception_class) : bool :=
  match cls, e with
  | ClsOSError, (RaisedOSError _ | RaisedPermissionError _) => true
  | ClsPermissionError, RaisedPermissionError _ => true
  | ClsKeyboardInterrupt, RaisedKeyboardInterrupt => true
  | _, _ => false
  end.

Definition strerror_of (e : raised) : string :=
  match e with
  | RaisedOSError s | RaisedPermissionError s => s
  | _ => EmptyString
  end.

Definition dquote : string := String (ascii_of_nat 34) EmptyString.

Definition MSG_NO_PERMISSION : string :=
  "No permission to create socket. Are you trying to use ports below 1024 without elevated rights?".

(** The [except] clauses of the script in source order, each with the
    error line it logs and the exit status it ends with ([pass] ends the
    script with status 0). *)
Definition except_clauses (e : raised) : list (exception_class * (list log_entry * Z)) :=
  [(ClsOSError, ([LogError ("OS reports: " +:+ dquote +:+ strerror_of e +:+ dquote)], 2));
   (ClsPermissionError, ([LogError MSG_NO_PERMISSION], 1));
   (ClsKeyboardInterrupt, ([], 0))].

(** The first clause whose class the exception is an instance of. *)
Definition selected_clause (e : raised) : option (exception_class * (list log_entry * Z)) :=
  List.find (λ clause, isinstance e clause.1) (except_clauses e).

(** The error lines and the exit status of the script: without a clause,
    [SystemExit] ends it with its code and any other exception with 1. *)
Definition script (e : raised) : list log_entry * Z :=
  match selected_clause e with
  | Some (_, result) => result
  | None =>
      match e with
      | RaisedSystemExit code => ([], code)
      | _ => ([], 1)
      end
  end.

(** A configuration with one station, and paths as [by_hierarchy] reads
    them. *)
Definition one_station_config : list (string * node) :=
  [("News", Dict [("BBC", Str "BBC - auto:http://bbc/stream")])].

(** The category path of a list of category names: the names joined by
    '|'. *)
Fixpoint join_path (hierarchy : list string) : string :=
  match hierarchy with
  | [] => EmptyString
  | [category] => category
  | category :: rest => category +:+ "|" +:+ join_path rest
  end.

(** No name of a category holds a '|'. *)
Fixpoint pipe_free_node (n : node) {struct n} : bool :=
  match n with
  | Dict items =>
      forallb (λ kv, match kv.2 with
                     | Dict _ => negb (contains "|" kv.1) && pipe_free_node kv.2
                     | _ => true
                     end) items
  | _ => true
  end.

Definition pipe_free (items : list (string * node)) : bool := pipe_free_node (Dict items).
(** * Properties *)

(** ** The shape of the recursive definitions *)

Lemma walktree_cons key data rest station_id by_id :
  walktree ((key, data) :: rest) station_id by_id =
  let '(data', station_id', by_id') :=
    match data with
    | Dict _ => walk_dict data station_id by_id
    | Str s => (Tup station_id s, station_id + 1, <[station_id := (key, s)]> by_id)
    | Tup _ _ => (data, station_id, by_id)
    end in
  let '(rest', station_id'', by_id'') := walktree rest station_id' by_id' in
  ((key, data') :: rest', station_id'', by_id'').
Proof. reflexivity. Qed.

Lemma walk_dict_Dict items station_id by_id :
  walk_dict (Dict items) station_id by_id =
  let '(items', station_id', by_id') := walktree items station_id by_id in
  (Dict items', station_id', by_id').
Proof. reflexivity. Qed.

Lemma leaves_cons key data rest :
  leaves ((key, data) :: rest) =
  match data with Dict sub => leaves sub | _ => [(key, data)] end ++ leaves rest.
Proof. destruct data; reflexivity. Qed.

(** Induction on a tree: a property of every dictionary follows from the
    property of the dictionaries nested in it. *)
Lemma dict_ind (P : list (string * node) → Prop) :
  (∀ items, Forall (λ kv, match kv.2 with Dict sub => P sub | _ => True end) items → P items) →
  ∀ items, P items.
Proof.
  intros step.
  assert (Hnode : ∀ n, match n with Dict sub => P sub | _ => True end).
  { fix IH 1. intros [items| |]; [|exact I..].
    apply step. induction items as [|[key data] rest IHrest]; constructor.
    - apply IH.
    - exact IHrest. }
  intros items. apply (Hnode (Dict items)).
Qed.

Lemma config_stations_cons key data rest :
  config_stations ((key, data) :: rest) =
  match data with
  | Dict sub => config_stations sub
  | Str s => [(key, s)]
  | Tup _ _ => []
  end ++ config_stations rest.
Proof.
  unfold config_stations. rewrite leaves_cons, omap_app.
  destruct data; reflexivity.
Qed.

Lemma catalog_stations_cons key data rest :
  catalog_stations ((key, data) :: rest) =
  match data with
  | Dict sub => catalog_stations sub
  | Str _ => []
  | Tup i u => [(i, (key, u))]
  end ++ catalog_stations rest.
Proof.
  unfold catalog_stations. rewrite leaves_cons, omap_app.
  destruct data; reflexivity.
Qed.

Lemma is_config_cons key data rest :
  is_config ((key, data) :: rest) = is_config_node data && is_config rest.
Proof. reflexivity. Qed.

(** ** Numbering and the index *)

Lemma number_app station_id a b :
  number station_id (a ++ b) =
  number station_id a ++ number (station_id + Z.of_nat (length a)) b.
Proof.
  revert station_id. induction a as [|s a IH]; intros station_id; cbn [number app length].
  - f_equal. lia.
  - rewrite IH. do 3 f_equal. lia.
Qed.

Lemma number_ids station_id l :
  (number station_id l).*1 = seqZ station_id (Z.of_nat (length l)).
Proof.
  revert station_id. induction l as [|s l IH]; intros station_id; [done|].
  cbn [number fmap list_fmap length]. rewrite seqZ_cons by lia.
  cbn. f_equal. rewrite IH. f_equal; lia.
Qed.

Lemma number_stations station_id l : (number station_id l).*2 = l.
Proof.
  revert station_id. induction l as [|s l IH]; intros station_id; [done|].
  cbn. f_equal. apply IH.
Qed.

Lemma enter_app by_id a b : enter by_id (a ++ b) = enter (enter by_id a) b.
Proof. apply foldl_app. Qed.

Lemma lookup_enter_number l : ∀ station_id (by_id : index) id,
  enter by_id (number station_id l) !! id =
  if decide (station_id ≤ id < station_id + Z.of_nat (length l))
  then l !! Z.to_nat (id - station_id)
  else by_id !! id.
Proof.
  induction l as [|s l IH]; intros station_id by_id id.
  - cbn. case_decide; [lia|done].
  - cbn [number enter foldl length]. fold (enter (<[station_id:=s]> by_id) (number (station_id + 1) l)).
    rewrite IH. cbn [fst snd]. destruct (decide (id = station_id)) as [->|Hne].
    + rewrite decide_False, decide_True by lia.
      rewrite lookup_insert_eq, Z.sub_diag. reflexivity.
    + rewrite lookup_insert_ne by done. repeat case_decide; try lia; [|done].
      replace (Z.to_nat (id - station_id)) with (S (Z.to_nat (id - (station_id + 1)))) by lia.
      reflexivity.
Qed.

Lemma enter_number_twice l station_id (by_id : index) :
  enter (enter by_id (number station_id l)) (number station_id l) =
  enter by_id (number station_id l).
Proof.
  apply map_eq. intros id. rewrite !lookup_enter_number.
  case_decide; reflexivity.
Qed.

(** ** The walk *)

Lemma walktree_numbers : ∀ items, is_config items = true → ∀ station_id,
  ∃ items',
    catalog_stations items' = number station_id (config_stations items) ∧
    ∀ by_id,
      walktree items station_id by_id =
        (items', station_id + Z.of_nat (length (config_stations items)),
         enter by_id (number station_id (config_stations items))).
Proof.
  intros items. pattern items. apply dict_ind. clear items.
  intros items Hsub. induction Hsub as [|[key data] rest Hdata _ IH]; intros Hcfg station_id.
  - exists []. split; [done|]. intros by_id. cbn. f_equal. f_equal. lia.
  - rewrite is_config_cons in Hcfg. apply andb_true_iff in Hcfg as [Hd Hrest].
    rewrite config_stations_cons, length_app, number_app.
    destruct data as [sub|s|i u]; [| |done].
    + cbn in Hdata. destruct (Hdata Hd station_id) as (sub' & Hsub' & Hwalk).
      destruct (IH Hrest (station_id + Z.of_nat (length (config_stations sub))))
        as (rest' & Hrest' & Hwalk').
      exists ((key, Dict sub') :: rest'). split.
      * rewrite catalog_stations_cons, Hsub', Hrest'. reflexivity.
      * intros by_id. rewrite walktree_cons, walk_dict_Dict, Hwalk, Hwalk', enter_app.
        f_equal. f_equal. lia.
    + destruct (IH Hrest (station_id + 1)) as (rest' & Hrest' & Hwalk').
      exists ((key, Tup station_id s) :: rest'). split.
      * rewrite catalog_stations_cons, Hrest'. reflexivity.
      * intros by_id. rewrite walktree_cons, Hwalk', enter_app.
        cbn [length number enter foldl]. f_equal. f_equal. lia.
Qed.

(** The keys of a dictionary are untouched by the walk; a station string
    becomes a tuple, a dictionary stays a dictionary of the same length. *)
Lemma walktree_keys items : ∀ station_id by_id,
  (walktree items station_id by_id).1.1.*1 = items.*1.
Proof.
  induction items as [|[key data] rest IH]; intros station_id by_id; [done|].
  rewrite walktree_cons.
  destruct (match data with Dict _ => _ | Str _ => _ | Tup _ _ => _ end) as [[data' i'] m'].
  specialize (IH i' m'). destruct (walktree rest i' m') as [[rest' ?] ?].
  cbn in *. by rewrite IH.
Qed.

Lemma walktree_get items key : ∀ station_id by_id,
  match dict_get items key with
  | Some (Str s) => ∃ id, dict_get (walktree items station_id by_id).1.1 key = Some (Tup id s)
  | Some (Dict sub) =>
      ∃ sub', dict_get (walktree items station_id by_id).1.1 key = Some (Dict sub')
              ∧ sub'.*1 = sub.*1
  | Some (Tup i u) => dict_get (walktree items station_id by_id).1.1 key = Some (Tup i u)
  | None => dict_get (walktree items station_id by_id).1.1 key = None
  end.
Proof.
  induction items as [|[k data] rest IH]; intros station_id by_id; [done|].
  rewrite walktree_cons. cbn [dict_get].
  destruct (String.eqb k key) eqn:Hk.
  - destruct data as [sub|s|i u].
    + rewrite walk_dict_Dict. pose proof (walktree_keys sub station_id by_id) as Hkeys.
      destruct (walktree sub station_id by_id) as [[sub' i'] m'].
      destruct (walktree rest i' m') as [[rest' ?] ?].
      exists sub'. cbn. rewrite Hk. done.
    + destruct (walktree rest _ _) as [[rest' ?] ?]. exists station_id. cbn. by rewrite Hk.
    + destruct (walktree rest _ _) as [[rest' ?] ?]. cbn. by rewrite Hk.
  - destruct (match data with Dict _ => _ | Str _ => _ | Tup _ _ => _ end) as [[data' i'] m'].
    specialize (IH i' m'). destruct (walktree rest i' m') as [[rest' ?] ?].
    cbn [fst dict_get] in *. rewrite Hk. exact IH.
Qed.

Lemma get_stations_Dict cfg self :
  get_stations (Loaded (Dict cfg)) self =
  let '(tree, _, by_id) := walktree cfg 1 (stations_by_id self) in
  ({| source := source self; stations := Dict tree; stations_by_id := by_id |}, [],
   Ok (Dict tree)).
Proof.
  unfold get_stations, set_station_by_id. cbn [stations stations_by_id source].
  destruct (walktree cfg 1 (stations_by_id self)) as [[tree next] by_id]. reflexivity.
Qed.

(** ** Station ids *)

(** C1.  Loading a configuration numbers its stations 1, 2, ..., N in
    pre-order document order (N the number of station strings): the ids
    found in the walked tree, read in document order, are exactly 1..N, so
    they are distinct and within [1, N]; the stations keep their names and
    urls; the index maps id k to the k-th station; and loading the same
    configuration again yields the same tree and the same index. *)
Theorem station_ids_sequential (cfg : list (string * node)) (self : StationSource) :
  is_config cfg = true →
  let N := Z.of_nat (length (config_stations cfg)) in
  ∃ tree by_id,
    let built := {| source := source self; stations := Dict tree; stations_by_id := by_id |} in
    get_stations (Loaded (Dict cfg)) self = (built, [], Ok (Dict tree)) ∧
    (catalog_stations tree).*1 = seqZ 1 N ∧
    NoDup (catalog_stations tree).*1 ∧
    (catalog_stations tree).*2 = config_stations cfg ∧
    (∀ id, 1 ≤ id ≤ N → by_id !! id = config_stations cfg !! Z.to_nat (id - 1)) ∧
    get_stations (Loaded (Dict cfg)) built = (built, [], Ok (Dict tree)).
Proof.
  intros Hcfg N.
  destruct (walktree_numbers cfg Hcfg 1) as (tree & Hcat & Hwalk).
  exists tree, (enter (stations_by_id self) (number 1 (config_stations cfg))).
  cbn zeta. rewrite !get_stations_Dict. cbn [stations_by_id source]. rewrite !Hwalk.
  repeat split.
  - rewrite Hcat. apply number_ids.
  - rewrite Hcat, number_ids. apply NoDup_seqZ.
  - rewrite Hcat. apply number_stations.
  - intros id Hid. rewrite lookup_enter_number. rewrite decide_True by (fold N; lia).
    reflexivity.
  - rewrite enter_number_twice. reflexivity.
Qed.

(** ** Sorting and slicing *)

Section Sorting.
Variable f : string → string.

Lemma insert_by_perm x l : insert_by f x l ≡ₚ x :: l.
Proof.
  induction l as [|y l IH]; [done|]. cbn [insert_by].
  destruct (String.leb (f x) (f y)); [done|].
  rewrite IH. apply Permutation_swap.
Qed.

Lemma sorted_by_perm l : sorted_by f l ≡ₚ l.
Proof.
  induction l as [|x l IH]; [done|]. cbn [sorted_by foldr].
  fold (sorted_by f l). rewrite insert_by_perm, IH. done.
Qed.




Lemma sorted_by_elem x l : x ∈ sorted_by f l ↔ x ∈ l.
Proof. by rewrite sorted_by_perm. Qed.

End Sorting.

Lemma py_slice_elem {A} (l : list A) start stop x : x ∈ py_slice l start stop → x ∈ l.
Proof.
  unfold py_slice. intros H.
  eapply subseteq_drop, subseteq_take, H.
Qed.

(** With both bounds in range order, a slice is a [drop] followed by a
    [take]. *)
Lemma py_slice_take_drop {A} (l : list A) start size :
  0 ≤ start → 0 ≤ size →
  py_slice l start (start + size) = take (Z.to_nat size) (drop (Z.to_nat start) l).
Proof.
  intros Hstart Hsize. unfold py_slice, clip.
  destruct (Z.ltb_spec start 0) as [?|_]; [lia|].
  destruct (Z.ltb_spec (start + size) 0) as [?|_]; [lia|].
  destruct (decide (Z.of_nat (length l) ≤ start)) as [Hout|Hin].
  - rewrite !drop_ge by lia. by rewrite !take_nil.
  - rewrite (Z.min_l start) by lia.
    destruct (decide (start + size ≤ Z.of_nat (length l))) as [Hle|Hgt].
    + rewrite Z.min_l by lia. do 2 f_equal. lia.
    + rewrite Z.min_r by lia. rewrite !take_ge; [done|rewrite length_drop; lia..].
Qed.




(** ** The handler *)

Section HandlerFacts.
Context {rt : Runtime}.


Lemma do_GET_loaded file self0 self logged top req :
  get_stations file self0 = (self, logged, Ok top) →
  do_GET file self0 req = (self, logged, dispatch self top req).
Proof. unfold do_GET. by intros ->. Qed.

Lemma dict_get_is_Some items key : key ∈ items.*1 → is_Some (dict_get items key).
Proof.
  induction items as [|[k v] items IH]; cbn [dict_get fmap list_fmap fst].
  - by intros ?%elem_of_nil.
  - intros [->|Hin]%elem_of_cons.
    + rewrite String.eqb_refl. by eexists.
    + destruct (String.eqb k key); [by eexists|by apply IH].
Qed.

Lemma dict_get_elem items key entry : dict_get items key = Some entry → (key, entry) ∈ items.
Proof.
  induction items as [|[k v] items IH]; cbn [dict_get]; [done|].
  destruct (String.eqb_spec k key) as [->|_].
  - intros [= ->]. apply elem_of_cons. by left.
  - intros H. apply elem_of_cons. right. by apply IH.
Qed.

(** *** Directory listings *)

Lemma for_each_add_dir items l : ∀ tag txt ch,
  (∀ name, name ∈ l → is_Some (dict_get items name)) →
  for_each
    (λ doc category,
       entry ← getitem (Dict items) category;
       Ok (add_dir doc category (category_url category) (str (len entry))))
    (Element tag txt ch) l
  = Ok (Element tag txt (ch ++ (dir_entry items <$> l))).
Proof.
  induction l as [|name l IH]; intros tag txt ch Hkeys; cbn [for_each fmap list_fmap].
  - by rewrite app_nil_r.
  - destruct (Hkeys name) as [entry Hentry]; [apply elem_of_cons; by left|].
    cbn [getitem]. rewrite Hentry. cbn [mbind outcome_bind add_dir SubElement].
    rewrite IH by (intros n Hn; apply Hkeys, elem_of_cons; by right).
    rewrite <- app_assoc. unfold dir_entry. rewrite Hentry. reflexivity.
Qed.

Lemma reply_with_dir_Dict items start max_size :
  reply_with_dir (Dict items) start max_size =
  Ok (Reply true
        (Element "ListOfItems" TNone
           (leaf "DirCount" "9" ::
            (dir_entry items <$>
               py_slice (sorted_by str_lower items.*1) start (start + max_size))))).
Proof.
  unfold reply_with_dir. cbn [sorted_lower mbind outcome_bind create_root SubElement app].
  rewrite for_each_add_dir; [reflexivity|].
  intros name Hname%py_slice_elem%sorted_by_elem. by apply dict_get_is_Some.
Qed.

Lemma listed_dir_entries items (l : list string) :
  omap item_name (dir_entry items <$> l) = l.
Proof. induction l as [|name l IH]; [done|]. cbn. by rewrite IH. Qed.

Lemma listed_root items (l : list string) tag txt :
  listed (Element tag txt (leaf "DirCount" "9" :: (dir_entry items <$> l))) = l.
Proof. unfold listed. cbn [children]. apply (listed_dir_entries items l). Qed.

Lemma dispatch_root self top req start size :
  root_request req start size →
  dispatch self top req = reply_with_dir top (start - 1) size.
Proof.
  intros [start' size' Hop Htoken Hstart Hsize|Hop]; unfold dispatch; rewrite Hop.
  - rewrite Htoken. rewrite decide_False by (by intros [? ?]).
    rewrite Hstart, Hsize. reflexivity.
  - reflexivity.
Qed.

(** *** Category listings *)

Lemma query_int_missing req key :
  url_query req !! key = None → query_int req key = Raise KeyError.
Proof. unfold query_int, query_get. by intros ->. Qed.

Lemma dispatch_category self top req category start size :
  category_request req category start size →
  dispatch self top req = try_mixed_list self (unquote category) (start - 1) size.
Proof.
  intros [start' size' Hop Hcat Hstart Hsize|Hop Hcat Hstart|start' Hop Hcat Hstart Hsize];
    unfold dispatch; rewrite Hop, Hcat; cbn [mbind outcome_bind].
  - rewrite Hstart, Hsize. reflexivity.
  - rewrite (query_int_missing _ _ Hstart). reflexivity.
  - rewrite Hstart, (query_int_missing _ _ Hsize). reflexivity.
Qed.



End HandlerFacts.

(** ** Substrings *)

Lemma startswith_spec s p : startswith s p = true ↔ ∃ t, s = p +:+ t.
Proof.
  revert s. induction p as [|a p IH]; intros s; cbn [startswith].
  - split; [by exists s|done].
  - destruct s as [|b s].
    + split; [done|]. by intros [t [=]].
    + rewrite andb_true_iff, IH, Ascii.eqb_eq. split.
      * intros [-> [t ->]]. by exists t.
      * intros [t [= -> ->]]. split; [done|]. by exists t.
Qed.

Lemma contains_spec needle s : contains needle s = true ↔ occurs needle s.
Proof.
  unfold occurs. induction s as [|c s IH]; cbn [contains]; rewrite orb_true_iff, startswith_spec.
  - split.
    + intros [[t ->]|[=]]. by exists EmptyString, t.
    + intros (before & after & H). left. destruct before as [|b before]; [|done].
      by exists after.
  - rewrite IH. split.
    + intros [[t ->]|(before & after & ->)]; [by exists EmptyString, t|].
      by exists (String c before), after.
    + intros ([|b before] & after & H).
      * left. by exists after.
      * right. injection H as -> ->. by exists before, after.
Qed.

(** ** The claims about the handler *)

Section Claims.
Context {rt : Runtime}.


(** C3 (as amended).  A station-detail request whose [id] is an integer
    that the index does not hold once the load of the request has run --
    the index holds the ids 1..N of the configuration just loaded and
    keeps the ids of earlier loads -- is answered with a document of
    exactly one station item: its StationName is the default station, its
    StationId the sentinel 999999; no error response is sent. *)
Theorem unknown_station_id_gets_default file self0 self logged top req station_id :
  get_stations file self0 = (self, logged, Ok top) →
  classify req = StationDetail →
  query_int req "id" = Ok station_id →
  stations_by_id self !! station_id = None →
  do_GET file self0 req =
    (self, logged,
     Ok (Reply true
           (Element "ListOfItems" TNone
              [station_item DEFAULTSTATION "999999" (TStr EmptyString)]))).
Proof.
  intros Hload Hop Hid Hmiss. rewrite (do_GET_loaded _ _ _ _ _ _ Hload).
  unfold dispatch. rewrite Hop, Hid. cbn [mbind outcome_bind].
  unfold by_id. rewrite Hmiss. reflexivity.
Qed.

(** C4 (as amended).  A station-detail request without [id], or a
    category-listing request without [category], sends no response: when
    the catalogue has loaded, [KeyError] leaves the handler. *)
Theorem missing_required_parameter_raises file self0 req :
  (classify req = StationDetail ∧ url_query req !! "id" = None) ∨
  (classify req = CategoryListing ∧ url_query req !! "category" = None) →
  (do_GET file self0 req).2 =
    match (get_stations file self0).2 with
    | Ok _ => Raise KeyError
    | Raise e => Raise e
    end.
Proof.
  intros Hreq. unfold do_GET.
  destruct (get_stations file self0) as [[self logged] [top|e]]; [|reflexivity].
  cbn [snd mbind outcome_bind]. unfold dispatch.
  destruct Hreq as [[-> Hid]|[-> Hcat]].
  - by rewrite (query_int_missing _ _ Hid).
  - unfold query_get. by rewrite Hcat.
Qed.

(** Path resolution as the handler treats it: a segment that is absent
    from a category gives [KeyError], which becomes a 404. *)
Lemma absent_segment_is_not_found self hierarchy start size :
  by_hierarchy self hierarchy = Raise KeyError →
  try_mixed_list self hierarchy start size = Ok (SendError 404).
Proof.
  intros Hres. unfold try_mixed_list, reply_with_mixed_list. by rewrite Hres.
Qed.

(** A segment looked up in a station raises [TypeError], which the
    [except KeyError] clause lets through. *)
Lemma station_segment_raises self hierarchy start size :
  by_hierarchy self hierarchy = Raise TypeError →
  try_mixed_list self hierarchy start size = Raise TypeError.
Proof.
  intros Hres. unfold try_mixed_list, reply_with_mixed_list. by rewrite Hres.
Qed.

(** C6 (as amended).  A url without the text "streamtheworld.com/" is
    returned unchanged, whatever the network does: no request is made.
    For a url with it, [filter_url] returns the location of the redirect
    that the request reports, and raises what the request raises. *)
Theorem filter_url_passes_other_urls url :
  (¬ occurs "streamtheworld.com/" url → filter_url url = Ok (TStr url)) ∧
  (occurs "streamtheworld.com/" url →
   (∀ newurl, urlopen url = Ok (Location newurl) → filter_url url = Ok (TStr newurl)) ∧
   (∀ e, urlopen url = Raise e → filter_url url = Raise e)).
Proof.
  unfold filter_url. split; intros H.
  - destruct (contains _ url) eqn:Hc; [|done]. by apply contains_spec in Hc.
  - apply contains_spec in H. rewrite H. split.
    + by intros newurl ->.
    + by intros e ->.
Qed.

(** C7 (as amended).  Nothing is built when the process starts: a new
    [StationSource] has an empty tree and an empty index.  Every request
    loads the configuration and rebuilds the catalogue: whatever tree was
    there before, afterwards the tree is the configuration just read with
    its stations numbered from 1, and the index is the old index with
    those numbers entered over it. *)
Theorem every_request_rebuilds cfg self0 req :
  is_config cfg = true →
  (∀ isfile ycast_dir src,
      stations (StationSource_init isfile ycast_dir src) = Dict [] ∧
      stations_by_id (StationSource_init isfile ycast_dir src) = ∅) ∧
  ∃ tree,
    (do_GET (Loaded (Dict cfg)) self0 req).1.1 =
      {| source := source self0;
         stations := Dict tree;
         stations_by_id := enter (stations_by_id self0) (number 1 (config_stations cfg)) |} ∧
    tree.*1 = cfg.*1 ∧
    catalog_stations tree = number 1 (config_stations cfg).
Proof.
  intros Hcfg. split; [done|].
  destruct (walktree_numbers cfg Hcfg 1) as (tree & Hcat & Hwalk).
  exists tree. unfold do_GET. rewrite get_stations_Dict, Hwalk. repeat split; [|done].
  pose proof (walktree_keys cfg 1 (stations_by_id self0)) as Hkeys.
  by rewrite Hwalk in Hkeys.
Qed.

(** C8 (as amended).  When the configuration file is not found, the load
    that starts a request logs one error line and exits with status 1: the
    catalogue is left as it was and no response is sent. *)
Theorem missing_configuration_is_fatal self req :
  do_GET FileNotFound self req = (self, [LogError MSG_NOT_FOUND], Raise (SystemExit 1)) ∧
  get_stations FileNotFound self = (self, [LogError MSG_NOT_FOUND], Raise (SystemExit 1)).
Proof. split; reflexivity. Qed.

(** C9 (as amended).  A category listing with a numeric [start] but without [howmany]
    is served with the default window, start 1 and size 8, whatever
    [start] was; the window of the query is used when both parameters are
    there. *)
Theorem start_without_howmany_is_discarded file self0 self logged top req category start :
  get_stations file self0 = (self, logged, Ok top) →
  classify req = CategoryListing →
  query_get req "category" = Ok category →
  query_int req "start" = Ok start →
  url_query req !! "howmany" = None →
  do_GET file self0 req = (self, logged, try_mixed_list self (unquote category) 0 8) ∧
  ∀ req' start' size',
    classify req' = CategoryListing →
    query_get req' "category" = Ok category →
    query_int req' "start" = Ok start' →
    query_int req' "howmany" = Ok size' →
    do_GET file self0 req' =
      (self, logged, try_mixed_list self (unquote category) (start' - 1) size').
Proof.
  intros Hload Hop Hcat Hstart Hsize. split.
  - rewrite (do_GET_loaded _ _ _ _ _ _ Hload).
    by rewrite (dispatch_category self top req category 1 8); [|eapply category_no_howmany].
  - intros req' start' size' Hop' Hcat' Hstart' Hsize'.
    rewrite (do_GET_loaded _ _ _ _ _ _ Hload).
    by rewrite (dispatch_category self top req' category start' size'); [|constructor].
Qed.

(** C10.  When the configuration has a station string directly at the top
    level, a root listing shows no station item at all: every item is a
    directory item, and the one for that station, when its name falls in
    the window, has DirCount 2, the length of its [(id, url)] tuple. *)
Theorem top_level_station_is_listed_as_dir cfg self0 req name url start size :
  dict_get cfg name = Some (Str url) →
  root_request req start size →
  ∃ rendered,
    (do_GET (Loaded (Dict cfg)) self0 req).2 =
      Ok (Reply true (Element "ListOfItems" TNone (leaf "DirCount" "9" :: rendered))) ∧
    Forall (λ item, is_station_item item = false) rendered ∧
    (name ∈ py_slice (sorted_by str_lower cfg.*1) (start - 1) (start - 1 + size) →
     dir_item name (category_url name) "2" ∈ rendered).
Proof.
  intros Hname Hroot. unfold do_GET. rewrite get_stations_Dict.
  pose proof (walktree_keys cfg 1 (stations_by_id self0)) as Hkeys.
  pose proof (walktree_get cfg name 1 (stations_by_id self0)) as Hget.
  rewrite Hname in Hget. destruct Hget as [id Hget].
  destruct (walktree cfg 1 (stations_by_id self0)) as [[tree next] by_id].
  cbn [fst snd] in *. cbn [mbind outcome_bind].
  rewrite (dispatch_root _ _ _ _ _ Hroot), reply_with_dir_Dict.
  eexists. split; [reflexivity|]. rewrite Hkeys. split.
  - apply Forall_forall. intros item (n & -> & _)%list_elem_of_fmap. reflexivity.
  - intros Hin. apply list_elem_of_fmap. exists name. split; [|done].
    unfold dir_entry. by rewrite Hget.
Qed.

End Claims.

(** ** Instances on the example catalogues *)

Lemma station_ids_sequential_witness :
  is_config example_config = true ∧
  ∃ tree by_id,
    get_stations (Loaded (Dict example_config)) fresh_source =
      ({| source := source fresh_source; stations := Dict tree; stations_by_id := by_id |},
       [], Ok (Dict tree)) ∧
    (catalog_stations tree).*1 = [1; 2] ∧
    by_id !! 2 = Some ("Jazz FM", "Jazz - auto:http://jazz/stream").
Proof.
  split; [reflexivity|].
  destruct (station_ids_sequential example_config fresh_source eq_refl)
    as (tree & by_id & Hload & Hids & _ & _ & Hindex & _).
  exists tree, by_id. split; [exact Hload|]. split; [exact Hids|].
  apply (Hindex 2). vm_compute. split; discriminate.
Defined.



Lemma unknown_station_id_gets_default_witness :
  do_GET (rt := example_runtime offline) (Loaded (Dict example_config)) fresh_source
    (get (VTUNER_STATURL +:+ "?id=7") VTUNER_STATURL [("id", ["7"])])
  = (example_source, [],
     Ok (Reply true
           (Element "ListOfItems" TNone
              [station_item "Radio Paradise - auto:http://stream.radioparadise.com/mp3-192"
                 "999999" (TStr EmptyString)]))).
Proof.
  apply (unknown_station_id_gets_default (rt := example_runtime offline)
           (Loaded (Dict example_config)) fresh_source example_source []
           (stations example_source) _ 7).
  - vm_compute. reflexivity.
  - vm_compute. reflexivity.
  - vm_compute. reflexivity.
  - vm_compute. reflexivity.
Defined.

(** C3, as stated, fails.  After a load of a configuration with one
    station, id 2 exceeds N = 1, yet the index still holds the entry of an
    earlier load and the reply is that station, not the default one; and
    an id that is no number raises [ValueError]. *)
Lemma unknown_station_id_counterexample :
  length (config_stations one_station_config) = 1%nat ∧
  (do_GET (rt := example_runtime offline) (Loaded (Dict one_station_config)) example_source
     (get (VTUNER_STATURL +:+ "?id=2") VTUNER_STATURL [("id", ["2"])])).2
    = Ok (Reply true
            (Element "ListOfItems" TNone
               [station_item "Jazz FM" "2" (TStr "Jazz - auto:http://jazz/stream")])) ∧
  (do_GET (rt := example_runtime offline) (Loaded (Dict one_station_config)) fresh_source
     (get (VTUNER_STATURL +:+ "?id=abc") VTUNER_STATURL [("id", ["abc"])])).2
    = Raise ValueError.
Proof. repeat split; vm_compute; reflexivity. Qed.

Lemma missing_required_parameter_raises_witness :
  (do_GET (rt := example_runtime offline) (Loaded (Dict example_config)) fresh_source
     (get VTUNER_STATURL VTUNER_STATURL [])).2 = Raise KeyError.
Proof.
  apply (missing_required_parameter_raises (rt := example_runtime offline)
           (Loaded (Dict example_config)) fresh_source (get VTUNER_STATURL VTUNER_STATURL [])).
  left. split; vm_compute; reflexivity.
Defined.

(** C4, as stated, fails: neither request is answered with a 404. *)
Lemma missing_parameter_counterexample :
  (do_GET (rt := example_runtime offline) (Loaded (Dict example_config)) fresh_source
     (get VTUNER_STATURL VTUNER_STATURL [])).2 = Raise KeyError ∧
  (do_GET (rt := example_runtime offline) (Loaded (Dict example_config)) fresh_source
     (get "/ycast?start=1" "/ycast" [("start", ["1"])])).2 = Raise KeyError.
Proof. split; vm_compute; reflexivity. Qed.

(** C5 on the example catalogue: a category path that names the station
    BBC, as its last segment or before it, is not answered with a 404 as a
    path with an absent segment is: [TypeError] leaves the handler. *)
Theorem station_in_category_path_raises :
  (do_GET (rt := example_runtime offline) (Loaded (Dict example_config)) fresh_source
     (get "/ycast?category=News%7CBBC" "/ycast" [("category", ["News|BBC"])])).2
    = Raise TypeError ∧
  (do_GET (rt := example_runtime offline) (Loaded (Dict example_config)) fresh_source
     (get "/ycast?category=News%7CBBC%7Clive" "/ycast" [("category", ["News|BBC|live"])])).2
    = Raise TypeError ∧
  (do_GET (rt := example_runtime offline) (Loaded (Dict example_config)) fresh_source
     (get "/ycast?category=News%7CCNN" "/ycast" [("category", ["News|CNN"])])).2
    = Ok (SendError 404).
Proof. repeat split; vm_compute; reflexivity. Qed.

Lemma filter_url_passes_other_urls_witness :
  filter_url (rt := example_runtime offline) "http://stream.radioparadise.com/mp3-192"
  = Ok (TStr "http://stream.radioparadise.com/mp3-192") ∧
  filter_url (rt := example_runtime (redirect_to "http://18103.live.streamtheworld.com/KINKFM.mp3"))
    "http://playerservices.streamtheworld.com/api/livestream-redirect/KINKFM.mp3"
  = Ok (TStr "http://18103.live.streamtheworld.com/KINKFM.mp3").
Proof.
  split.
  - apply (proj1 (filter_url_passes_other_urls (rt := example_runtime offline)
                    "http://stream.radioparadise.com/mp3-192")).
    intros Hocc%contains_spec. vm_compute in Hocc. discriminate.
  - assert (Hocc : occurs "streamtheworld.com/"
                     "http://playerservices.streamtheworld.com/api/livestream-redirect/KINKFM.mp3").
    { apply contains_spec. vm_compute. reflexivity. }
    apply (proj1 (proj2 (filter_url_passes_other_urls
             (rt := example_runtime (redirect_to "http://18103.live.streamtheworld.com/KINKFM.mp3"))
             "http://playerservices.streamtheworld.com/api/livestream-redirect/KINKFM.mp3") Hocc)).
    reflexivity.
Defined.

(** C6, as stated, fails: for a streamtheworld url that is not redirected
    the result is [False], not the url, and an exception of the request is
    not caught. *)
Lemma filter_url_counterexample :
  filter_url (rt := example_runtime no_redirect)
    "http://playerservices.streamtheworld.com/api/livestream-redirect/KINKFM.mp3"
  = Ok TFalse ∧
  filter_url (rt := example_runtime offline)
    "http://playerservices.streamtheworld.com/api/livestream-redirect/KINKFM.mp3"
  = Raise HTTPError.
Proof. split; vm_compute; reflexivity. Qed.

Lemma every_request_rebuilds_witness :
  ∃ tree,
    (do_GET (rt := example_runtime offline) (Loaded (Dict example_config)) example_source
       (get "/" "/" [])).1.1 =
      {| source := source example_source;
         stations := Dict tree;
         stations_by_id :=
           enter (stations_by_id example_source) (number 1 (config_stations example_config)) |} ∧
    tree.*1 = ["News"; "Music"].
Proof.
  destruct (every_request_rebuilds (rt := example_runtime offline)
              example_config example_source (get "/" "/" []) eq_refl)
    as (_ & tree & Hstate & Hkeys & _).
  exists tree. split; [exact Hstate|exact Hkeys].
Defined.

(** C7, as stated, fails: the catalogue is empty after start-up, a request
    builds it, and a later request, the file having changed, replaces the
    tree while the index keeps the stations of the old one. *)
Lemma catalog_built_once_counterexample :
  stations fresh_source = Dict [] ∧
  (do_GET (rt := example_runtime offline) (Loaded (Dict example_config)) fresh_source
     (get "/" "/" [])).1.1 = example_source ∧
  example_source ≠ fresh_source ∧
  stations (do_GET (rt := example_runtime offline) (Loaded (Dict three_config)) example_source
              (get "/" "/" [])).1.1 = Dict three_config ∧
  stations_by_id (do_GET (rt := example_runtime offline) (Loaded (Dict three_config))
                    example_source (get "/" "/" [])).1.1 !! 1
    = Some ("BBC", "BBC - auto:http://bbc/stream").
Proof.
  split; [reflexivity|]. split; [vm_compute; reflexivity|].
  split; [|split; vm_compute; reflexivity].
  intros H. apply (f_equal stations) in H. vm_compute in H. discriminate.
Qed.

(** C8, as stated, fails: a document that is a string, not a mapping, is
    stored and [AttributeError] is raised; a file that cannot be read
    raises [OSError].  Neither logs a line nor exits. *)
Lemma configuration_error_counterexample :
  get_stations (Loaded (Str "not a mapping")) fresh_source =
    ({| source := source fresh_source; stations := Str "not a mapping";
        stations_by_id := ∅ |}, [], Raise AttributeError) ∧
  get_stations Unreadable fresh_source = (fresh_source, [], Raise OSError).
Proof. split; reflexivity. Qed.

Lemma start_without_howmany_is_discarded_witness :
  do_GET (rt := example_runtime offline) (Loaded (Dict example_config)) fresh_source
    (get "/ycast?category=News&start=5" "/ycast" [("category", ["News"]); ("start", ["5"])])
  = (example_source, [], try_mixed_list (rt := example_runtime offline) example_source "News" 0 8).
Proof.
  apply (start_without_howmany_is_discarded (rt := example_runtime offline)
           (Loaded (Dict example_config)) fresh_source example_source []
           (stations example_source)
           (get "/ycast?category=News&start=5" "/ycast"
              [("category", ["News"]); ("start", ["5"])])
           "News" 5).
  - vm_compute. reflexivity.
  - vm_compute. reflexivity.
  - vm_compute. reflexivity.
  - vm_compute. reflexivity.
  - vm_compute. reflexivity.
Defined.

(** C9, as stated, fails: a [start] that is supplied but is no number is
    not discarded for the default; [ValueError] leaves the handler. *)
Lemma start_without_howmany_counterexample :
  (do_GET (rt := example_runtime offline) (Loaded (Dict example_config)) fresh_source
     (get "/ycast?category=News&start=first" "/ycast"
        [("category", ["News"]); ("start", ["first"])])).2
    = Raise ValueError.
Proof. vm_compute. reflexivity. Qed.

Lemma top_level_station_is_listed_as_dir_witness :
  ∃ rendered,
    (do_GET (rt := example_runtime offline) (Loaded (Dict top_station_config)) fresh_source
       (get "/" "/" [])).2 =
      Ok (Reply true (Element "ListOfItems" TNone (leaf "DirCount" "9" :: rendered))) ∧
    dir_item "Paradise" "http://radioyamaha.vtuner.com/ycast?category=Paradise" "2" ∈ rendered.
Proof.
  destruct (top_level_station_is_listed_as_dir (rt := example_runtime offline)
              top_station_config fresh_source (get "/" "/" [])
              "Paradise" "http://stream.radioparadise.com/mp3-192" 1 8)
    as (rendered & Hreply & _ & Hdir).
  - reflexivity.
  - apply alias_listing. vm_compute. reflexivity.
  - exists rendered. split; [exact Hreply|]. apply Hdir.
    vm_compute. apply elem_of_cons. right. apply elem_of_cons. by left.
Defined.

(** * Further properties of the code *)

(** ** The walk on any tree *)

(** Whatever the tree holds, the walk advances the counter by the number
    of station strings and enters exactly those, numbered in document
    order, into the index. *)
Lemma walktree_counter_index : ∀ items station_id by_id,
  (walktree items station_id by_id).1.2 =
    station_id + Z.of_nat (length (config_stations items)) ∧
  (walktree items station_id by_id).2 =
    enter by_id (number station_id (config_stations items)).
Proof.
  intros items. pattern items. apply dict_ind. clear items.
  intros items Hsub. induction Hsub as [|[key data] rest Hdata _ IH]; intros station_id by_id.
  - cbn. split; [lia|done].
  - rewrite walktree_cons, config_stations_cons, length_app, number_app, enter_app.
    destruct data as [sub|s|i u].
    + cbn in Hdata. rewrite walk_dict_Dict.
      destruct (Hdata station_id by_id) as [Hc Hi].
      destruct (walktree sub station_id by_id) as [[sub' c'] i']. cbn [fst snd] in Hc, Hi.
      destruct (IH c' i') as [Hc' Hi'].
      destruct (walktree rest c' i') as [[rest' c''] i'']. cbn [fst snd] in *.
      subst. split; [lia|]. repeat f_equal; lia.
    + destruct (IH (station_id + 1) (<[station_id:=(key, s)]> by_id)) as [Hc' Hi'].
      destruct (walktree rest _ _) as [[rest' c''] i'']. cbn [fst snd length number enter foldl] in *.
      subst. split; [lia|reflexivity].
    + destruct (IH station_id by_id) as [Hc' Hi'].
      destruct (walktree rest _ _) as [[rest' c''] i'']. cbn [fst snd length number enter foldl] in *.
      subst. split; [lia|]. repeat f_equal; lia.
Qed.

Lemma is_catalog_cons key data rest :
  is_catalog ((key, data) :: rest) = is_catalog_node data && is_catalog rest.
Proof. reflexivity. Qed.

Lemma walktree_is_catalog : ∀ items station_id by_id,
  is_catalog (walktree items station_id by_id).1.1 = true.
Proof.
  intros items. pattern items. apply dict_ind. clear items.
  intros items Hsub. induction Hsub as [|[key data] rest Hdata _ IH]; intros station_id by_id.
  - reflexivity.
  - rewrite walktree_cons. destruct data as [sub|s|i u].
    + cbn in Hdata. rewrite walk_dict_Dict. specialize (Hdata station_id by_id).
      destruct (walktree sub station_id by_id) as [[sub' c'] i'].
      specialize (IH c' i'). destruct (walktree rest c' i') as [[rest' c''] i''].
      cbn [fst snd] in *. rewrite is_catalog_cons. cbn [is_catalog_node].
      fold (is_catalog sub'). by rewrite Hdata, IH.
    + specialize (IH (station_id + 1) (<[station_id:=(key, s)]> by_id)).
      destruct (walktree rest _ _) as [[rest' c''] i'']. cbn [fst snd] in *.
      by rewrite is_catalog_cons, IH.
    + specialize (IH station_id by_id).
      destruct (walktree rest _ _) as [[rest' c''] i'']. cbn [fst snd] in *.
      by rewrite is_catalog_cons, IH.
Qed.

Lemma walktree_of_catalog : ∀ items, is_catalog items = true → ∀ station_id by_id,
  walktree items station_id by_id = (items, station_id, by_id).
Proof.
  intros items. pattern items. apply dict_ind. clear items.
  intros items Hsub. induction Hsub as [|[key data] rest Hdata _ IH]; intros Hcat station_id by_id.
  - reflexivity.
  - rewrite is_catalog_cons in Hcat. apply andb_true_iff in Hcat as [Hd Hrest].
    rewrite walktree_cons. destruct data as [sub|s|i u]; [|done|].
    + cbn in Hdata. rewrite walk_dict_Dict, (Hdata Hd), (IH Hrest). reflexivity.
    + rewrite (IH Hrest). reflexivity.
Qed.

(** X1.  [set_station_by_id] is idempotent: run again on the catalogue it
    has just walked, it finds no string to number, so the tree, the index
    and the result are those of the first run. *)
Theorem set_station_by_id_idempotent (self : StationSource) :
  set_station_by_id (set_station_by_id self).1 = set_station_by_id self.
Proof.
  unfold set_station_by_id. destruct (stations self) as [items|s|i u] eqn:Hst.
  - pose proof (walktree_is_catalog items 1 (stations_by_id self)) as Hcat.
    destruct (walktree items 1 (stations_by_id self)) as [[tree next] by_id].
    cbn [fst snd stations stations_by_id source] in *.
    by rewrite (walktree_of_catalog tree Hcat).
  - cbn [fst]. by rewrite Hst.
  - cbn [fst]. by rewrite Hst.
Qed.

(** ** The index across loads *)

Lemma get_stations_index cfg self :
  stations_by_id (get_stations (Loaded (Dict cfg)) self).1.1 =
  enter (stations_by_id self) (number 1 (config_stations cfg)).
Proof.
  rewrite get_stations_Dict.
  pose proof (walktree_counter_index cfg 1 (stations_by_id self)) as [_ Hindex].
  destruct (walktree cfg 1 (stations_by_id self)) as [[tree next] by_id]. exact Hindex.
Qed.

(** X2.  [stations_by_id] is never cleared: whatever a load reads -- a
    missing or unreadable file, a document that is no mapping, a new
    configuration -- an id that [by_id] knew before the load is still known
    after it. *)
Theorem index_never_forgets (file : load_result) (self : StationSource) (id : Z) :
  is_Some (stations_by_id self !! id) →
  is_Some (stations_by_id (get_stations file self).1.1 !! id).
Proof.
  intros Hknown. destruct file as [| | |[cfg|s|i u]]; try exact Hknown.
  rewrite get_stations_index, lookup_enter_number. case_decide as Hin; [|exact Hknown].
  apply lookup_lt_is_Some. lia.
Qed.

Section IndexFacts.
Context {rt : Runtime}.

(** X3.  An id outside 1..N of the configuration just loaded keeps the
    entry of an earlier load: a station-detail request for it is answered
    with that earlier station, not with the default station. *)
Theorem stale_station_id_is_served cfg self0 req id name url t :
  stations_by_id self0 !! id = Some (name, url) →
  ¬ (1 ≤ id ≤ Z.of_nat (length (config_stations cfg))) →
  classify req = StationDetail →
  query_int req "id" = Ok id →
  filter_url url = Ok t →
  (do_GET (Loaded (Dict cfg)) self0 req).2 =
    Ok (Reply true (Element "ListOfItems" TNone [station_item name (str id) t])).
Proof.
  intros Hold Hout Hop Hid Hurl. unfold do_GET.
  pose proof (get_stations_index cfg self0) as Hindex. rewrite get_stations_Dict in *.
  destruct (walktree cfg 1 (stations_by_id self0)) as [[tree next] idx].
  cbn [fst snd stations_by_id] in *. cbn [mbind outcome_bind].
  unfold dispatch. rewrite Hop, Hid. cbn [mbind outcome_bind].
  unfold by_id. cbn [stations_by_id]. rewrite Hindex, lookup_enter_number.
  rewrite decide_False by lia. rewrite Hold. cbn [mbind outcome_bind except_KeyError].
  unfold add_station. rewrite Hurl. reflexivity.
Qed.

End IndexFacts.

Lemma index_never_forgets_witness :
  is_Some (stations_by_id
             (get_stations (Loaded (Dict three_config)) example_source).1.1 !! 2).
Proof.
  apply (index_never_forgets (Loaded (Dict three_config)) example_source 2).
  vm_compute. eexists. reflexivity.
Defined.

Lemma stale_station_id_is_served_witness :
  (do_GET (rt := example_runtime offline) (Loaded (Dict three_config)) example_source
     (get (VTUNER_STATURL +:+ "?id=1") VTUNER_STATURL [("id", ["1"])])).2 =
    Ok (Reply true
          (Element "ListOfItems" TNone
             [station_item "BBC" "1" (TStr "BBC - auto:http://bbc/stream")])).
Proof.
  apply (stale_station_id_is_served (rt := example_runtime offline) three_config example_source
           (get (VTUNER_STATURL +:+ "?id=1") VTUNER_STATURL [("id", ["1"])])
           1 "BBC" "BBC - auto:http://bbc/stream" (TStr "BBC - auto:http://bbc/stream")).
  - vm_compute. reflexivity.
  - vm_compute. intros [_ H]. apply H. reflexivity.
  - vm_compute. reflexivity.
  - vm_compute. reflexivity.
  - vm_compute. reflexivity.
Defined.

(** ** The two ways to a station: by path and by id *)

Lemma leaves_elem_top key data items :
  (key, data) ∈ items → (∀ sub, data ≠ Dict sub) → (key, data) ∈ leaves items.
Proof.
  intros Hin Hleaf. induction items as [|[k v] items IH]; [by apply elem_of_nil in Hin|].
  rewrite leaves_cons. apply elem_of_app. apply elem_of_cons in Hin as [[= <- <-]|Hin].
  - left. destruct data as [sub| |]; [by destruct (Hleaf sub)|apply elem_of_cons; by left..].
  - right. by apply IH.
Qed.

Lemma leaves_elem_sub key sub items x :
  (key, Dict sub) ∈ items → x ∈ leaves sub → x ∈ leaves items.
Proof.
  intros Hin Hx. induction items as [|[k v] items IH]; [by apply elem_of_nil in Hin|].
  rewrite leaves_cons. apply elem_of_app. apply elem_of_cons in Hin as [[= <- <-]|Hin].
  - by left.
  - right. by apply IH.
Qed.

Lemma leaves_elem_inv x items :
  x ∈ leaves items →
  ∃ key data, (key, data) ∈ items ∧
    match data with
    | Dict sub => x ∈ leaves sub
    | _ => x = (key, data)
    end.
Proof.
  induction items as [|[k v] items IH]; [by intros ?%elem_of_nil|].
  rewrite leaves_cons. intros [Hx|Hx]%elem_of_app.
  - exists k, v. split; [apply elem_of_cons; by left|].
    destruct v as [sub| |]; [done|by apply list_elem_of_singleton in Hx..].
  - destruct (IH Hx) as (key & data & Hin & Hdata).
    exists key, data. split; [apply elem_of_cons; by right|done].
Qed.

Lemma by_hierarchy_from_leaves : ∀ hierarchy items sub x,
  by_hierarchy_from (Dict items) hierarchy = Ok (Dict sub) →
  x ∈ leaves sub → x ∈ leaves items.
Proof.
  induction hierarchy as [|category rest IH]; intros items sub x; cbn [by_hierarchy_from].
  - by intros [= ->].
  - cbn [getitem]. destruct (dict_get items category) as [next|] eqn:Hget; [|done].
    cbn [mbind outcome_bind]. apply dict_get_elem in Hget.
    destruct next as [items1|s|i u].
    + intros Hres Hx. eapply leaves_elem_sub; [exact Hget|]. by eapply IH.
    + by destruct rest.
    + by destruct rest.
Qed.

Lemma number_elem l : ∀ station_id id s,
  (id, s) ∈ number station_id l →
  station_id ≤ id < station_id + Z.of_nat (length l) ∧ l !! Z.to_nat (id - station_id) = Some s.
Proof.
  induction l as [|s0 l IH]; intros station_id id s; cbn [number length].
  - by intros ?%elem_of_nil.
  - intros [[= -> ->]|Hin]%elem_of_cons.
    + split; [lia|]. by rewrite Z.sub_diag.
    + destruct (IH _ _ _ Hin) as [Hrange Hlook]. split; [lia|].
      replace (Z.to_nat (id - station_id)) with (S (Z.to_nat (id - (station_id + 1)))) by lia.
      exact Hlook.
Qed.

Lemma number_lookup l : ∀ station_id (i : nat) s,
  l !! i = Some s → (station_id + Z.of_nat i, s) ∈ number station_id l.
Proof.
  induction l as [|s0 l IH]; intros station_id i s; [done|].
  destruct i as [|i]; cbn [number].
  - intros [= ->]. rewrite Z.add_0_r. apply elem_of_cons. by left.
  - intros Hl. apply elem_of_cons. right.
    replace (station_id + Z.of_nat (S i)) with (station_id + 1 + Z.of_nat i) by lia.
    by apply IH.
Qed.

Lemma dict_get_of_elem items key data :
  NoDup items.*1 → (key, data) ∈ items → dict_get items key = Some data.
Proof.
  induction items as [|[k v] items IH]; [by intros _ ?%elem_of_nil|].
  cbn [fmap list_fmap fst dict_get]. intros [Hfresh Hnodup]%NoDup_cons [[= <- <-]|Hin]%elem_of_cons.
  - by rewrite String.eqb_refl.
  - destruct (String.eqb_spec k key) as [->|_]; [|by apply IH].
    destruct Hfresh. apply list_elem_of_fmap. by exists (key, data).
Qed.

Lemma distinct_keys_unfold items :
  distinct_keys items = true ↔
  NoDup items.*1 ∧ Forall (λ kv, distinct_keys_node kv.2 = true) items.
Proof.
  unfold distinct_keys. rewrite andb_true_iff, bool_decide_eq_true, forallb_forall, Forall_forall.
  split; intros [Hn Hf]; (split; [done|]); intros kv Hkv; apply Hf;
    by apply list_elem_of_In.
Qed.

Lemma leaf_is_reachable : ∀ items, distinct_keys items = true → ∀ x, x ∈ leaves items →
  ∃ hierarchy sub,
    by_hierarchy_from (Dict items) hierarchy = Ok (Dict sub) ∧ dict_get sub x.1 = Some x.2.
Proof.
  intros items. pattern items. apply dict_ind. clear items.
  intros items Hsub [Hnodup Hdist]%distinct_keys_unfold x Hx.
  destruct (leaves_elem_inv x items Hx) as (key & data & Hin & Hdata).
  rewrite Forall_forall in Hsub, Hdist.
  destruct data as [sub|s|i u].
  - destruct (Hsub _ Hin (Hdist _ Hin) x Hdata) as (hierarchy & sub' & Hres & Hget).
    exists (key :: hierarchy), sub'. split; [|done].
    cbn [by_hierarchy_from getitem]. by rewrite (dict_get_of_elem _ _ _ Hnodup Hin).
  - subst x. exists [], items. split; [done|]. by apply dict_get_of_elem.
  - subst x. exists [], items. split; [done|]. by apply dict_get_of_elem.
Qed.

Lemma walktree_distinct_keys : ∀ items, distinct_keys items = true → ∀ station_id by_id,
  distinct_keys (walktree items station_id by_id).1.1 = true.
Proof.
  intros items. pattern items. apply dict_ind. clear items.
  intros items Hsub [Hnodup Hdist]%distinct_keys_unfold station_id by_id.
  apply distinct_keys_unfold. split; [by rewrite walktree_keys|].
  clear Hnodup. revert station_id by_id.
  induction Hsub as [|[key data] rest Hdata _ IH]; intros station_id by_id; [constructor|].
  apply Forall_cons in Hdist as [Hd Hrest]. rewrite walktree_cons.
  destruct data as [sub|s|i u].
  - cbn in Hdata, Hd. rewrite walk_dict_Dict.
    specialize (Hdata Hd station_id by_id).
    destruct (walktree sub station_id by_id) as [[sub' c'] i'].
    specialize (IH Hrest c' i'). destruct (walktree rest c' i') as [[rest' c''] i''].
    cbn [fst snd] in *. by constructor.
  - specialize (IH Hrest (station_id + 1) (<[station_id:=(key, s)]> by_id)).
    destruct (walktree rest _ _) as [[rest' c''] i'']. cbn [fst snd] in *. by constructor.
  - specialize (IH Hrest station_id by_id).
    destruct (walktree rest _ _) as [[rest' c''] i'']. cbn [fst snd] in *. by constructor.
Qed.

Section Lookups.
Context {rt : Runtime}.

(** X4.  The id of a station found by its category path resolves to that
    station: after a load, when [by_hierarchy] leads to a category whose
    child [name] is the tuple [(id, url)], [by_id] of that id returns
    [(name, url)], and the id lies in 1..N. *)
Theorem listed_station_id_resolves cfg self0 category items name id url :
  is_config cfg = true →
  by_hierarchy (get_stations (Loaded (Dict cfg)) self0).1.1 category = Ok (Dict items) →
  dict_get items name = Some (Tup id url) →
  by_id (get_stations (Loaded (Dict cfg)) self0).1.1 id = Ok (name, url) ∧
  1 ≤ id ≤ Z.of_nat (length (config_stations cfg)).
Proof.
  intros Hcfg Hres Hget.
  pose proof (get_stations_index cfg self0) as Hindex.
  destruct (walktree_numbers cfg Hcfg 1) as (tree & Hcat & Hwalk).
  rewrite get_stations_Dict, Hwalk in *. cbn [fst snd stations stations_by_id] in *.
  unfold by_hierarchy in Hres. cbn [stations] in Hres.
  assert (Hleaf : (name, Tup id url) ∈ leaves tree).
  { eapply by_hierarchy_from_leaves; [exact Hres|].
    apply leaves_elem_top; [by apply dict_get_elem|done]. }
  assert (Hin : (id, (name, url)) ∈ catalog_stations tree).
  { unfold catalog_stations. apply list_elem_of_omap. by exists (name, Tup id url). }
  rewrite Hcat in Hin. apply number_elem in Hin as [Hrange Hlook].
  split; [|lia]. unfold by_id. cbn [stations_by_id].
  rewrite lookup_enter_number, decide_True by lia. by rewrite Hlook.
Qed.

End Lookups.

(** ** Category paths *)

Lemma split_nonempty s sep : split s sep ≠ [].
Proof.
  destruct s as [|c s]; cbn [split]; [done|].
  destruct (Ascii.eqb c sep); [done|]. by destruct (split s sep).
Qed.

Lemma split_app a b sep :
  split (a +:+ String sep b) sep = split a sep ++ split b sep.
Proof.
  induction a as [|c a IH].
  - change (EmptyString +:+ String sep b) with (String sep b).
    cbn [split app]. by rewrite Ascii.eqb_refl.
  - change (String c a +:+ String sep b) with (String c (a +:+ String sep b)).
    cbn [split]. destruct (Ascii.eqb c sep); [by rewrite IH|].
    rewrite IH. pose proof (split_nonempty a sep). by destruct (split a sep).
Qed.

Lemma split_without_sep s sep :
  contains (String sep EmptyString) s = false → split s sep = [s].
Proof.
  induction s as [|c s IH]; cbn [contains startswith split]; [done|].
  rewrite orb_false_iff, andb_true_r. intros [Hc Hs].
  rewrite Ascii.eqb_sym, Hc, (IH Hs). reflexivity.
Qed.

Lemma by_hierarchy_from_app : ∀ l1 l2 node,
  by_hierarchy_from node (l1 ++ l2) =
  (next ← by_hierarchy_from node l1; by_hierarchy_from next l2).
Proof.
  induction l1 as [|category l1 IH]; intros l2 node; cbn [app by_hierarchy_from]; [done|].
  destruct (getitem node category) as [next|e]; cbn [mbind outcome_bind]; [apply IH|done].
Qed.

(** X6.  Category paths compose: for an [item] without a '|', the path
    [hierarchy|item] -- the one [reply_with_mixed_list] puts in the UrlDir
    of a sub-directory -- resolves to the child [item] of what [hierarchy]
    resolves to, and the path [item] alone to the child [item] of the
    root; a failure of either step is the failure of the whole. *)
Theorem subdirectory_path_resolves (self : StationSource) (hierarchy item : string) :
  contains "|" item = false →
  by_hierarchy self (hierarchy +:+ "|" +:+ item) =
    (current_dir ← by_hierarchy self hierarchy; getitem current_dir item) ∧
  by_hierarchy self item = getitem (stations self) item.
Proof.
  intros Hitem. unfold by_hierarchy. split.
  - change ("|" +:+ item) with (String "|" item).
    rewrite split_app, by_hierarchy_from_app, (split_without_sep item "|" Hitem).
    destruct (by_hierarchy_from (stations self) (split hierarchy "|")) as [node|e]; [|done].
    cbn [mbind outcome_bind by_hierarchy_from]. by destruct (getitem node item).
  - rewrite (split_without_sep item "|" Hitem). cbn [by_hierarchy_from].
    by destruct (getitem (stations self) item).
Qed.

Lemma subdirectory_path_resolves_witness :
  by_hierarchy example_source "News|BBC" = Ok (Tup 1 "BBC - auto:http://bbc/stream") ∧
  by_hierarchy example_source "Music" =
    Ok (Dict [("Jazz FM", Tup 2 "Jazz - auto:http://jazz/stream")]).
Proof.
  split.
  - etransitivity;
      [exact (proj1 (subdirectory_path_resolves example_source "News" "BBC" eq_refl))|].
    vm_compute. reflexivity.
  - etransitivity;
      [exact (proj2 (subdirectory_path_resolves example_source "News" "Music" eq_refl))|].
    vm_compute. reflexivity.
Defined.

(** ** Pages *)

Lemma py_slice_pages {A} (l : list A) start m n :
  0 ≤ start → 0 ≤ m → 0 ≤ n →
  py_slice l start (start + m) ++ py_slice l (start + m) (start + m + n) =
  py_slice l start (start + (m + n)).
Proof.
  intros Hstart Hm Hn. rewrite !py_slice_take_drop by lia.
  replace (Z.to_nat (start + m)) with (Z.to_nat start + Z.to_nat m)%nat by lia.
  rewrite <- drop_drop, take_take_drop. f_equal. lia.
Qed.

Lemma py_slice_all {A} (l : list A) size :
  Z.of_nat (length l) ≤ size → py_slice l 0 (0 + size) = l.
Proof.
  intros Hsize. rewrite py_slice_take_drop by lia. cbn [Z.to_nat drop].
  apply take_ge. lia.
Qed.

Lemma py_slice_length {A} (l : list A) start size :
  0 ≤ size → (length (py_slice l start (start + size)) ≤ Z.to_nat size)%nat.
Proof.
  intros Hsize. unfold py_slice, clip. rewrite length_take.
  destruct (Z.ltb_spec start 0), (Z.ltb_spec (start + size) 0); lia.
Qed.

Section Pages.
Context {rt : Runtime}.

(** X7.  The pages of a root listing neither overlap nor leave a gap: for
    an offset [start ≥ 0], the names of the page of [m] items followed by
    the names of the next page of [n] items are the names of the one page
    of [m + n] items; and from offset 0, a page at least as long as the
    dictionary holds every key, in case-insensitive order. *)
Theorem root_pages_concatenate items start m n :
  0 ≤ start → 0 ≤ m → 0 ≤ n →
  ∃ page1 page2 both,
    reply_with_dir (Dict items) start m = Ok (Reply true page1) ∧
    reply_with_dir (Dict items) (start + m) n = Ok (Reply true page2) ∧
    reply_with_dir (Dict items) start (m + n) = Ok (Reply true both) ∧
    listed page1 ++ listed page2 = listed both ∧
    (start = 0 → Z.of_nat (length items) ≤ m + n →
     listed both = sorted_by str_lower items.*1).
Proof.
  intros Hstart Hm Hn. rewrite !reply_with_dir_Dict.
  do 3 eexists. repeat split; try reflexivity.
  - rewrite !listed_root. by apply py_slice_pages.
  - intros -> Hlen. rewrite listed_root. apply py_slice_all.
    by rewrite sorted_by_perm, length_fmap.
Qed.

(** X8.  Whatever [start] is, negative or beyond the end, a root listing
    with [max_size ≥ 0] succeeds, holds at most [max_size] items, and
    every item is named after a key of the dictionary. *)
Theorem root_listing_is_bounded items start max_size :
  0 ≤ max_size →
  ∃ doc,
    reply_with_dir (Dict items) start max_size = Ok (Reply true doc) ∧
    (length (listed doc) ≤ Z.to_nat max_size)%nat ∧
    ∀ name, name ∈ listed doc → name ∈ items.*1.
Proof.
  intros Hsize. rewrite reply_with_dir_Dict. eexists. split; [reflexivity|].
  rewrite listed_root. split; [by apply py_slice_length|].
  by intros name Hname%py_slice_elem%sorted_by_elem.
Qed.

End Pages.

Lemma root_pages_concatenate_witness :
  ∃ page1 page2 both,
    reply_with_dir (rt := example_runtime offline) (Dict ten_config) 0 8
      = Ok (Reply true page1) ∧
    reply_with_dir (rt := example_runtime offline) (Dict ten_config) 8 8
      = Ok (Reply true page2) ∧
    reply_with_dir (rt := example_runtime offline) (Dict ten_config) 0 16
      = Ok (Reply true both) ∧
    listed page1 ++ listed page2 = listed both.
Proof.
  destruct (root_pages_concatenate (rt := example_runtime offline) ten_config 0 8 8)
    as (page1 & page2 & both & H1 & H2 & H3 & Happ & _); [lia..|].
  exists page1, page2, both. repeat split; assumption.
Defined.

Lemma root_listing_is_bounded_witness :
  ∃ doc,
    reply_with_dir (rt := example_runtime offline) (Dict ten_config) (-3) 8
      = Ok (Reply true doc) ∧
    (length (listed doc) ≤ 8)%nat.
Proof.
  destruct (root_listing_is_bounded (rt := example_runtime offline) ten_config (-3) 8)
    as (doc & Hreply & Hlen & _); [lia|].
  exists doc. split; assumption.
Defined.

(** ** The items of a category listing *)

Section CategoryItems.
Context {rt : Runtime}.

Lemma for_each_mixed_items items hierarchy l : ∀ tag txt ch,
  (∀ name, name ∈ l → ∃ entry, dict_get items name = Some entry ∧ renderable entry) →
  ∃ rendered,
    for_each
      (λ doc item,
         entry ← getitem (Dict items) item;
         match entry with
         | Dict _ =>
             Ok (add_dir doc item (category_url (hierarchy +:+ "|" +:+ item))
                   (str (len entry)))
         | Tup station_id station_url => add_station doc item station_url station_id
         | Str _ => Ok doc
         end)
      (Element tag txt ch) l = Ok (Element tag txt (ch ++ rendered)) ∧
    Forall2 (rendered_as hierarchy items) l rendered.
Proof.
  induction l as [|name l IH]; intros tag txt ch Hl; cbn [for_each].
  - exists []. by rewrite app_nil_r.
  - destruct (Hl name) as (entry & Hentry & Hrender); [apply elem_of_cons; by left|].
    assert (Hrest : ∀ n, n ∈ l → ∃ entry, dict_get items n = Some entry ∧ renderable entry).
    { intros n Hn. apply Hl, elem_of_cons. by right. }
    cbn [getitem]. rewrite Hentry. cbn [mbind outcome_bind].
    destruct entry as [sub|s|i u]; [|done|].
    + cbn [mbind outcome_bind].
      change (add_dir (Element tag txt ch) name (category_url (hierarchy +:+ "|" +:+ name))
                (str (len (Dict sub))))
        with (Element tag txt
                (ch ++ [dir_item name (category_url (hierarchy +:+ "|" +:+ name))
                          (str (Z.of_nat (length sub)))])).
      destruct (IH tag txt (ch ++ [dir_item name (category_url (hierarchy +:+ "|" +:+ name))
                                     (str (Z.of_nat (length sub)))]) Hrest)
        as (rendered & Hdoc & Hall).
      rewrite <- app_assoc in Hdoc. eexists (_ :: rendered). split; [exact Hdoc|].
      constructor; [|done]. unfold rendered_as. by rewrite Hentry.
    + destruct Hrender as [t Ht]. unfold add_station at 2. rewrite Ht.
      cbn [mbind outcome_bind].
      change (SubElement (Element tag txt ch) (station_item name (str i) t))
        with (Element tag txt (ch ++ [station_item name (str i) t])).
      destruct (IH tag txt (ch ++ [station_item name (str i) t]) Hrest)
        as (rendered & Hdoc & Hall).
      rewrite <- app_assoc in Hdoc. eexists (_ :: rendered). split; [exact Hdoc|].
      constructor; [|done]. unfold rendered_as. rewrite Hentry. by exists t.
Qed.

(** X9.  A category listing whose children are categories and stations
    with resolvable urls is the document [ListOfItems] with exactly one
    item per name of the window, in the order of the window: for a
    sub-category a directory item whose UrlDir names the path
    [hierarchy|name] and whose DirCount is the number of its children, for
    a station a station item with its name, its id and its resolved url. *)
Theorem category_listing_items self hierarchy items start max_size :
  by_hierarchy self hierarchy = Ok (Dict items) →
  Forall (λ kv, renderable kv.2) items →
  ∃ rendered,
    reply_with_mixed_list self hierarchy start max_size =
      Ok (Reply true (Element "ListOfItems" TNone rendered)) ∧
    Forall2 (rendered_as hierarchy items)
      (py_slice (sorted_by str_lower items.*1) start (start + max_size)) rendered.
Proof.
  intros Hres Hrender. unfold reply_with_mixed_list. rewrite Hres.
  cbn [mbind outcome_bind sorted_lower create_root].
  destruct (for_each_mixed_items items hierarchy
              (py_slice (sorted_by str_lower items.*1) start (start + max_size))
              "ListOfItems" TNone [])
    as (rendered & Hdoc & Hall).
  { intros name Hname%py_slice_elem%sorted_by_elem.
    destruct (dict_get_is_Some items name Hname) as [entry Hentry].
    exists entry. split; [done|].
    apply dict_get_elem in Hentry. rewrite Forall_forall in Hrender.
    by apply (Hrender (name, entry)). }
  match type of Hdoc with
  | ?lhs = _ =>
      match goal with
      | |- context [for_each ?b ?d ?l] => change (for_each b d l) with lhs
      end
  end.
  rewrite Hdoc. by exists rendered.
Qed.

Lemma for_each_raises {A} (body : xml → A → outcome xml) (x : A) l : ∀ doc,
  x ∈ l → (∀ d, ∃ e, body d x = Raise e) → ∃ e, for_each body doc l = Raise e.
Proof.
  induction l as [|y l IH]; intros doc Hin Hx; [by apply elem_of_nil in Hin|].
  cbn [for_each]. destruct (body doc y) as [doc'|e] eqn:Hy; [|by exists e].
  cbn [mbind outcome_bind]. apply elem_of_cons in Hin as [->|Hin].
  - destruct (Hx doc) as [e He]. congruence.
  - by apply IH.
Qed.

(** X10.  One station whose url [filter_url] cannot resolve fails the
    whole page: when a station of the window has a url on which
    [filter_url] raises, [reply_with_mixed_list] raises and writes no
    document, whatever the other children are. *)
Theorem unresolved_station_fails_the_page self hierarchy items start max_size name id url e :
  by_hierarchy self hierarchy = Ok (Dict items) →
  name ∈ py_slice (sorted_by str_lower items.*1) start (start + max_size) →
  dict_get items name = Some (Tup id url) →
  filter_url url = Raise e →
  ∃ e', reply_with_mixed_list self hierarchy start max_size = Raise e'.
Proof.
  intros Hres Hname Hget Hurl. unfold reply_with_mixed_list. rewrite Hres.
  cbn [mbind outcome_bind sorted_lower].
  match goal with
  | |- context [for_each ?body ?doc ?l] =>
      destruct (for_each_raises body name l doc Hname) as [e' He']
  end.
  - intros d. exists e. cbn [getitem]. rewrite Hget. cbn [mbind outcome_bind].
    unfold add_station. by rewrite Hurl.
  - rewrite He'. by exists e'.
Qed.

(** X11.  In a root listing the DirCount of a category is the number of
    entries that the configuration has directly under it; the DirCount
    element at the head of the document is 9 whatever the dictionary
    holds. *)
Theorem category_dircount_is_child_count cfg self0 req name sub start size :
  dict_get cfg name = Some (Dict sub) →
  root_request req start size →
  name ∈ py_slice (sorted_by str_lower cfg.*1) (start - 1) (start - 1 + size) →
  ∃ rendered,
    (do_GET (Loaded (Dict cfg)) self0 req).2 =
      Ok (Reply true (Element "ListOfItems" TNone (leaf "DirCount" "9" :: rendered))) ∧
    dir_item name (category_url name) (str (Z.of_nat (length sub))) ∈ rendered.
Proof.
  intros Hname Hroot Hin. unfold do_GET. rewrite get_stations_Dict.
  pose proof (walktree_keys cfg 1 (stations_by_id self0)) as Hkeys.
  pose proof (walktree_get cfg name 1 (stations_by_id self0)) as Hget.
  rewrite Hname in Hget. destruct Hget as (sub' & Hget & Hsub).
  destruct (walktree cfg 1 (stations_by_id self0)) as [[tree next] idx].
  cbn [fst snd] in *. cbn [mbind outcome_bind].
  rewrite (dispatch_root _ _ _ _ _ Hroot), reply_with_dir_Dict.
  eexists. split; [reflexivity|]. rewrite Hkeys.
  apply list_elem_of_fmap. exists name. split; [|done].
  unfold dir_entry. rewrite Hget. cbn [from_option len].
  do 3 f_equal. rewrite <- (length_fmap fst sub), <- Hsub, length_fmap. reflexivity.
Qed.

End CategoryItems.

Lemma listed_station_id_resolves_witness :
  by_id example_source 1 = Ok ("BBC", "BBC - auto:http://bbc/stream") ∧
  1 ≤ 1 ≤ Z.of_nat (length (config_stations example_config)).
Proof.
  apply (listed_station_id_resolves example_config fresh_source "News"
           [("BBC", Tup 1 "BBC - auto:http://bbc/stream")] "BBC" 1
           "BBC - auto:http://bbc/stream").
  - reflexivity.
  - vm_compute. reflexivity.
  - vm_compute. reflexivity.
Defined.

Lemma category_listing_items_witness :
  ∃ rendered,
    reply_with_mixed_list
      (rt := example_runtime (redirect_to "http://18103.live.streamtheworld.com/KINKFM.mp3"))
      redirected_source "Rock" 0 8
    = Ok (Reply true (Element "ListOfItems" TNone rendered)) ∧
    rendered =
      [station_item "KINK" "1" (TStr "http://18103.live.streamtheworld.com/KINKFM.mp3");
       station_item "Paradise" "2" (TStr "http://stream.radioparadise.com/mp3-192")].
Proof.
  destruct (category_listing_items
              (rt := example_runtime (redirect_to "http://18103.live.streamtheworld.com/KINKFM.mp3"))
              redirected_source "Rock"
              [("KINK", Tup 1 "http://playerservices.streamtheworld.com/api/livestream-redirect/KINKFM.mp3");
               ("Paradise", Tup 2 "http://stream.radioparadise.com/mp3-192")] 0 8)
    as (rendered & Hreply & Hall).
  - vm_compute. reflexivity.
  - repeat constructor; cbn; eexists; reflexivity.
  - exists rendered. split; [exact Hreply|].
    vm_compute in Hreply. by injection Hreply as <-.
Defined.

Lemma unresolved_station_fails_the_page_witness :
  ∃ e, reply_with_mixed_list (rt := example_runtime offline) redirected_source "Rock" 0 8
       = Raise e.
Proof.
  apply (unresolved_station_fails_the_page (rt := example_runtime offline)
           redirected_source "Rock"
           [("KINK", Tup 1 "http://playerservices.streamtheworld.com/api/livestream-redirect/KINKFM.mp3");
            ("Paradise", Tup 2 "http://stream.radioparadise.com/mp3-192")] 0 8
           "KINK" 1 "http://playerservices.streamtheworld.com/api/livestream-redirect/KINKFM.mp3"
           HTTPError).
  - vm_compute. reflexivity.
  - vm_compute. apply elem_of_cons. by left.
  - vm_compute. reflexivity.
  - vm_compute. reflexivity.
Defined.

Lemma category_dircount_is_child_count_witness :
  ∃ rendered,
    (do_GET (rt := example_runtime offline) (Loaded (Dict example_config)) fresh_source
       (get "/" "/" [])).2 =
      Ok (Reply true (Element "ListOfItems" TNone (leaf "DirCount" "9" :: rendered))) ∧
    dir_item "News" "http://radioyamaha.vtuner.com/ycast?category=News" "1" ∈ rendered.
Proof.
  apply (category_dircount_is_child_count (rt := example_runtime offline)
           example_config fresh_source (get "/" "/" []) "News"
           [("BBC", Str "BBC - auto:http://bbc/stream")] 1 8).
  - reflexivity.
  - apply alias_listing. vm_compute. reflexivity.
  - vm_compute. apply elem_of_cons. right. apply elem_of_cons. by left.
Defined.

(** ** The shape of every response *)

Section Responses.
Context {rt : Runtime}.

Lemma for_each_keeps_root {A} (body : xml → A → outcome xml) tag txt :
  (∀ ch x d, body (Element tag txt ch) x = Ok d → ∃ ch', d = Element tag txt ch') →
  ∀ l ch d, for_each body (Element tag txt ch) l = Ok d → ∃ ch', d = Element tag txt ch'.
Proof.
  intros Hbody. induction l as [|x l IH]; intros ch d; cbn [for_each].
  - intros [= <-]. by exists ch.
  - destruct (body (Element tag txt ch) x) as [d1|e] eqn:Hx; [|done].
    destruct (Hbody _ _ _ Hx) as [ch1 ->]. cbn [mbind outcome_bind]. apply IH.
Qed.

Lemma reply_with_dir_shape stations start max_size resp :
  reply_with_dir stations start max_size = Ok resp →
  ∃ items, resp = Reply true (Element "ListOfItems" TNone items).
Proof.
  unfold reply_with_dir. destruct (sorted_lower stations) as [names|e]; [|done].
  cbn [mbind outcome_bind].
  match goal with
  | |- context [for_each ?b ?d ?l] => destruct (for_each b d l) as [doc|e] eqn:Hdoc
  end; [|done].
  apply for_each_keeps_root in Hdoc as [items ->].
  - intros [= <-]. by exists items.
  - intros ch x d. destruct (getitem stations x); [|done]. intros [= <-]. by eexists.
Qed.

Lemma reply_with_mixed_list_shape self hierarchy start max_size resp :
  reply_with_mixed_list self hierarchy start max_size = Ok resp →
  ∃ items, resp = Reply true (Element "ListOfItems" TNone items).
Proof.
  unfold reply_with_mixed_list. destruct (by_hierarchy self hierarchy) as [station_list|e]; [|done].
  cbn [mbind outcome_bind]. destruct (sorted_lower station_list) as [names|e]; [|done].
  cbn [mbind outcome_bind].
  match goal with
  | |- context [for_each ?b ?d ?l] => destruct (for_each b d l) as [doc|e] eqn:Hdoc
  end; [|done].
  apply for_each_keeps_root in Hdoc as [items ->].
  - intros [= <-]. by exists items.
  - intros ch x d. destruct (getitem station_list x) as [[sub|s|i u]|]; [| | |done].
    + intros [= <-]. by eexists.
    + intros [= <-]. by eexists.
    + cbn [mbind outcome_bind]. unfold add_station. destruct (filter_url u); [|done].
      intros [= <-]. by eexists.
Qed.

(** X12.  Whatever the request and the catalogue, a response that
    [do_GET] sends is one of three: the error 404 (no other status is ever
    sent by [send_error]); the handshake token, the one document without
    the XML prolog; or a [ListOfItems] document with the prolog. *)
Theorem response_is_one_of_three file self req resp :
  (do_GET file self req).2 = Ok resp →
  resp = SendError 404 ∨
  resp = Reply false (Element "EncryptedToken" (TStr "85d6fa40a9dcc906") []) ∨
  ∃ items, resp = Reply true (Element "ListOfItems" TNone items).
Proof.
  unfold do_GET. destruct (get_stations file self) as [[self' logged] [top|e]]; [|done].
  cbn [snd mbind outcome_bind]. unfold dispatch. destruct (classify req).
  - destruct (decide _) as [Htoken|Htoken].
    + intros [= <-]. right. by left.
    + destruct (query_int req "start"); [|done]. destruct (query_int req "howmany"); [|done].
      cbn [mbind outcome_bind]. intros Hr%reply_with_dir_shape. by do 2 right.
  - destruct (query_int req "id") as [station_id|]; [|done]. cbn [mbind outcome_bind].
    destruct (by_id self' station_id) as [[name url]|e].
    + cbn [mbind outcome_bind except_KeyError]. unfold add_station.
      destruct (filter_url url); [|done]. intros [= <-]. do 2 right. by eexists.
    + destruct e; try (cbn; done). cbn. intros [= <-]. do 2 right. by eexists.
  - intros Hr%reply_with_dir_shape. by do 2 right.
  - destruct (query_get req "category"); [|done]. cbn [mbind outcome_bind].
    destruct (except_KeyError _ _) as [[start size]|]; [|done]. cbn [mbind outcome_bind].
    unfold try_mixed_list.
    destruct (reply_with_mixed_list _ _ _ _) as [r|[]] eqn:Hr; cbn [except_KeyError]; try done.
    + intros [= <-]. apply reply_with_mixed_list_shape in Hr. by do 2 right.
    + intros [= <-]. by left.
  - intros [= <-]. by left.
Qed.

(** X13.  The defaults of a category listing replace a missing parameter
    only: a [start] that is there but is no number, or a [howmany] that is
    no number after a numeric [start], raises [ValueError], which leaves
    the handler; no listing and no 404 is sent. *)
Theorem non_numeric_window_raises file self0 self logged top req category :
  get_stations file self0 = (self, logged, Ok top) →
  classify req = CategoryListing →
  query_get req "category" = Ok category →
  query_int req "start" = Raise ValueError ∨
  (∃ start, query_int req "start" = Ok start ∧ query_int req "howmany" = Raise ValueError) →
  do_GET file self0 req = (self, logged, Raise ValueError).
Proof.
  intros Hload Hop Hcat Hbad. rewrite (do_GET_loaded _ _ _ _ _ _ Hload).
  unfold dispatch. rewrite Hop, Hcat. cbn [mbind outcome_bind].
  destruct Hbad as [->|(start & -> & ->)]; reflexivity.
Qed.

(** X14.  On a category whose children are all stations,
    [reply_with_station_list] over the category and
    [reply_with_mixed_list] over its path give the same result: the same
    document, or the same exception of [filter_url]. *)
Theorem station_list_agrees_with_mixed_list self hierarchy items start max_size :
  by_hierarchy self hierarchy = Ok (Dict items) →
  Forall (λ kv, ∃ id url, kv.2 = Tup id url) items →
  reply_with_station_list (Dict items) start max_size =
  reply_with_mixed_list self hierarchy start max_size.
Proof.
  intros Hres Hall. unfold reply_with_station_list, reply_with_mixed_list.
  rewrite Hres. cbn [mbind outcome_bind sorted_lower]. f_equal.
  assert (Hwin : ∀ name, name ∈ py_slice (sorted_by str_lower items.*1) start (start + max_size) →
                 ∃ id url, dict_get items name = Some (Tup id url)).
  { intros name Hname%py_slice_elem%sorted_by_elem.
    destruct (dict_get_is_Some items name Hname) as [entry Hentry].
    rewrite Forall_forall in Hall.
    destruct (Hall _ (dict_get_elem _ _ _ Hentry)) as (id & url & Heq).
    cbn in Heq. subst entry. by exists id, url. }
  revert Hwin. generalize (py_slice (sorted_by str_lower items.*1) start (start + max_size)).
  generalize create_root.
  intros doc l. revert doc. induction l as [|name l IH]; intros doc Hwin; [done|].
  cbn [for_each]. destruct (Hwin name) as (id & url & Hget); [apply elem_of_cons; by left|].
  cbn [getitem]. rewrite Hget. cbn [mbind outcome_bind unpack_station]. unfold add_station.
  destruct (filter_url url) as [t|e]; [|done]. cbn [mbind outcome_bind].
  apply IH. intros n Hn. apply Hwin, elem_of_cons. by right.
Qed.

End Responses.

Lemma response_is_one_of_three_witness :
  SendError 404 = SendError 404 ∨
  SendError 404 = Reply false (Element "EncryptedToken" (TStr "85d6fa40a9dcc906") []) ∨
  ∃ items, SendError 404 = Reply true (Element "ListOfItems" TNone items).
Proof.
  apply (response_is_one_of_three (rt := example_runtime offline)
           (Loaded (Dict example_config)) fresh_source (get "/favicon.ico" "/favicon.ico" [])).
  vm_compute. reflexivity.
Defined.

Lemma non_numeric_window_raises_witness :
  do_GET (rt := example_runtime offline) (Loaded (Dict example_config)) fresh_source
    (get "/ycast?category=News&start=first" "/ycast"
       [("category", ["News"]); ("start", ["first"])])
  = (example_source, [], Raise ValueError).
Proof.
  apply (non_numeric_window_raises (rt := example_runtime offline)
           (Loaded (Dict example_config)) fresh_source example_source []
           (stations example_source) _ "News").
  - vm_compute. reflexivity.
  - vm_compute. reflexivity.
  - vm_compute. reflexivity.
  - left. vm_compute. reflexivity.
Defined.

Lemma station_list_agrees_with_mixed_list_witness :
  reply_with_station_list (rt := example_runtime offline)
    (Dict [("BBC", Tup 1 "BBC - auto:http://bbc/stream")]) 0 8 =
  reply_with_mixed_list (rt := example_runtime offline) example_source "News" 0 8.
Proof.
  apply (station_list_agrees_with_mixed_list (rt := example_runtime offline)
           example_source "News" [("BBC", Tup 1 "BBC - auto:http://bbc/stream")] 0 8).
  - vm_compute. reflexivity.
  - repeat constructor. by eexists _, _.
Defined.

(** ** The script *)

(** X15.  The clause [except PermissionError] of the script is never
    taken: PermissionError is an OSError, and the clause for OSError comes
    first.  A PermissionError -- a port below 1024 without the right to
    bind it -- is reported as "OS reports: ..." and ends the script with
    status 2; the message about ports below 1024 is never logged. *)
Theorem permission_clause_is_never_taken (e : raised) :
  (∀ result, selected_clause e ≠ Some (ClsPermissionError, result)) ∧
  (LogError MSG_NO_PERMISSION ∉ (script e).1) ∧
  (isinstance e ClsPermissionError = true →
   script e = ([LogError ("OS reports: " +:+ dquote +:+ strerror_of e +:+ dquote)], 2)).
Proof.
  destruct e; repeat split; try done; cbn.
  - apply not_elem_of_cons. split; [|apply not_elem_of_nil]. by intros [= H].
  - apply not_elem_of_cons. split; [|apply not_elem_of_nil]. by intros [= H].
  - apply not_elem_of_nil.
  - apply not_elem_of_nil.
  - apply not_elem_of_nil.
Qed.

Lemma permission_clause_is_never_taken_witness :
  script (RaisedPermissionError "Permission denied") =
    ([LogError ("OS reports: " +:+ dquote +:+ "Permission denied" +:+ dquote)], 2).
Proof.
  apply (permission_clause_is_never_taken (RaisedPermissionError "Permission denied")).
  reflexivity.
Defined.

(** ** Requests in a row *)

(** X16.  A load that fails leaves no trace for the next one: whatever
    made it fail -- a missing or unreadable file, a malformed document, a
    document that is no mapping -- the load of a document after it gives
    the state and the result that it would have given without the failed
    load before it. *)
Theorem failed_load_leaves_no_trace (bad : load_result) (v : node) (self : StationSource) e :
  (get_stations bad self).2 = Raise e →
  get_stations (Loaded v) (get_stations bad self).1.1 = get_stations (Loaded v) self.
Proof.
  destruct bad as [| | |[cfg|s|i u]]; try reflexivity.
  rewrite get_stations_Dict.
  by destruct (walktree cfg 1 (stations_by_id self)) as [[tree next] idx].
Qed.

Lemma failed_load_leaves_no_trace_witness :
  get_stations (Loaded (Dict example_config))
    (get_stations (Loaded (Str "not a mapping")) fresh_source).1.1
  = get_stations (Loaded (Dict example_config)) fresh_source.
Proof.
  apply (failed_load_leaves_no_trace (Loaded (Str "not a mapping")) (Dict example_config)
           fresh_source AttributeError).
  reflexivity.
Defined.

Section Repeated.
Context {rt : Runtime}.

(** X17.  With an unchanged configuration of mappings and strings, a
    request is answered the same however many requests came before it:
    after a first request has loaded the configuration, any request
    leaves the state as it is and gets the response it would have got as
    the first request. *)
Theorem repeated_request_same_response cfg self0 req0 req :
  is_config cfg = true →
  let self1 := (do_GET (Loaded (Dict cfg)) self0 req0).1.1 in
  do_GET (Loaded (Dict cfg)) self1 req =
    (self1, [], (do_GET (Loaded (Dict cfg)) self0 req).2).
Proof.
  intros Hcfg. destruct (walktree_numbers cfg Hcfg 1) as (tree & Hcat & Hwalk).
  unfold do_GET. rewrite !get_stations_Dict, !Hwalk. cbn [fst snd stations_by_id source].
  rewrite ?get_stations_Dict, ?Hwalk. cbn [fst snd stations_by_id source].
  rewrite ?Hwalk, enter_number_twice. reflexivity.
Qed.

End Repeated.

Lemma repeated_request_same_response_witness :
  do_GET (rt := example_runtime offline) (Loaded (Dict example_config))
    (do_GET (rt := example_runtime offline) (Loaded (Dict example_config)) fresh_source
       (get "/" "/" [])).1.1
    (get (VTUNER_STATURL +:+ "?id=2") VTUNER_STATURL [("id", ["2"])])
  = ((do_GET (rt := example_runtime offline) (Loaded (Dict example_config)) fresh_source
        (get "/" "/" [])).1.1, [],
     (do_GET (rt := example_runtime offline) (Loaded (Dict example_config)) fresh_source
        (get (VTUNER_STATURL +:+ "?id=2") VTUNER_STATURL [("id", ["2"])])).2).
Proof.
  apply (repeated_request_same_response (rt := example_runtime offline) example_config
           fresh_source (get "/" "/" [])
           (get (VTUNER_STATURL +:+ "?id=2") VTUNER_STATURL [("id", ["2"])])).
  reflexivity.
Defined.

(** ** From an id back to a category path *)

Lemma split_join_path hierarchy :
  hierarchy ≠ [] →
  Forall (λ category, contains "|" category = false) hierarchy →
  split (join_path hierarchy) "|" = hierarchy.
Proof.
  intros Hne Hall. induction Hall as [|category rest Hc Hrest IH]; [done|].
  destruct rest as [|next rest]; [by apply split_without_sep|].
  change (join_path (category :: next :: rest))
    with (category +:+ String "|" (join_path (next :: rest))).
  rewrite split_app, (split_without_sep _ _ Hc), IH; done.
Qed.

Lemma pipe_free_cons key data rest :
  pipe_free ((key, data) :: rest) =
  match data with
  | Dict sub => negb (contains "|" key) && pipe_free sub
  | _ => true
  end && pipe_free rest.
Proof. by destruct data. Qed.

Lemma pipe_free_elem items key sub :
  pipe_free items = true → (key, Dict sub) ∈ items →
  contains "|" key = false ∧ pipe_free sub = true.
Proof.
  induction items as [|[k v] items IH]; [by intros _ ?%elem_of_nil|].
  rewrite pipe_free_cons. intros [Hv Hrest]%andb_true_iff [[= <- <-]|Hin]%elem_of_cons.
  - apply andb_true_iff in Hv as [Hk Hsub]. by apply negb_true_iff in Hk.
  - by apply IH.
Qed.

Lemma walktree_pipe_free : ∀ items, pipe_free items = true → ∀ station_id by_id,
  pipe_free (walktree items station_id by_id).1.1 = true.
Proof.
  intros items. pattern items. apply dict_ind. clear items.
  intros items Hsub. induction Hsub as [|[key data] rest Hdata _ IH]; intros Hfree station_id by_id.
  - reflexivity.
  - rewrite pipe_free_cons in Hfree. apply andb_true_iff in Hfree as [Hd Hrest].
    rewrite walktree_cons. destruct data as [sub|s|i u].
    + cbn in Hdata. apply andb_true_iff in Hd as [Hkey Hfree_sub]. rewrite walk_dict_Dict.
      specialize (Hdata Hfree_sub station_id by_id).
      destruct (walktree sub station_id by_id) as [[sub' c'] i'].
      specialize (IH Hrest c' i'). destruct (walktree rest c' i') as [[rest' c''] i''].
      cbn [fst snd] in *. rewrite pipe_free_cons. apply andb_true_iff. split; [|exact IH].
      apply andb_true_iff. split; [exact Hkey|exact Hdata].
    + specialize (IH Hrest (station_id + 1) (<[station_id:=(key, s)]> by_id)).
      destruct (walktree rest _ _) as [[rest' c''] i'']. cbn [fst snd] in *.
      rewrite pipe_free_cons. exact IH.
    + specialize (IH Hrest station_id by_id).
      destruct (walktree rest _ _) as [[rest' c''] i'']. cbn [fst snd] in *.
      rewrite pipe_free_cons. exact IH.
Qed.

Lemma leaf_is_reachable_by_names : ∀ items,
  distinct_keys items = true → pipe_free items = true → ∀ x, x ∈ leaves items →
  ∃ hierarchy sub,
    Forall (λ category, contains "|" category = false) hierarchy ∧
    by_hierarchy_from (Dict items) hierarchy = Ok (Dict sub) ∧
    dict_get sub x.1 = Some x.2.
Proof.
  intros items. pattern items. apply dict_ind. clear items.
  intros items Hsub [Hnodup Hdist]%distinct_keys_unfold Hfree x Hx.
  destruct (leaves_elem_inv x items Hx) as (key & data & Hin & Hdata).
  rewrite Forall_forall in Hsub, Hdist.
  destruct data as [sub|s|i u].
  - destruct (pipe_free_elem _ _ _ Hfree Hin) as [Hkey Hfree_sub].
    destruct (Hsub _ Hin (Hdist _ Hin) Hfree_sub x Hdata) as (hierarchy & sub' & Hall & Hres & Hget).
    exists (key :: hierarchy), sub'. split; [by constructor|]. split; [|done].
    cbn [by_hierarchy_from getitem]. by rewrite (dict_get_of_elem _ _ _ Hnodup Hin).
  - subst x. exists [], items. split; [constructor|]. split; [done|]. by apply dict_get_of_elem.
  - subst x. exists [], items. split; [constructor|]. split; [done|]. by apply dict_get_of_elem.
Qed.

Section Reachable.
Context {rt : Runtime}.

(** X5.  Every id of 1..N leads back to its station: when the keys of
    every mapping are distinct and no category name holds a '|', the
    entry [(name, url)] that [by_id] returns for the id is found again as
    the tuple [(id, url)] under [name], either directly in the root
    dictionary or in the category that [by_hierarchy] returns for some
    category path. *)
Theorem indexed_station_is_reachable cfg self0 id :
  is_config cfg = true →
  distinct_keys cfg = true →
  pipe_free cfg = true →
  1 ≤ id ≤ Z.of_nat (length (config_stations cfg)) →
  ∃ name url,
    by_id (get_stations (Loaded (Dict cfg)) self0).1.1 id = Ok (name, url) ∧
    (getitem (stations (get_stations (Loaded (Dict cfg)) self0).1.1) name = Ok (Tup id url) ∨
     ∃ category items,
       by_hierarchy (get_stations (Loaded (Dict cfg)) self0).1.1 category = Ok (Dict items) ∧
       dict_get items name = Some (Tup id url)).
Proof.
  intros Hcfg Hdist Hfree Hid.
  pose proof (walktree_distinct_keys cfg Hdist 1 (stations_by_id self0)) as Hdist'.
  pose proof (walktree_pipe_free cfg Hfree 1 (stations_by_id self0)) as Hfree'.
  destruct (walktree_numbers cfg Hcfg 1) as (tree & Hcat & Hwalk).
  rewrite get_stations_Dict, Hwalk in *. cbn [fst snd stations stations_by_id] in *.
  destruct (lookup_lt_is_Some_2 (config_stations cfg) (Z.to_nat (id - 1))) as [[name url] Hlook];
    [lia|].
  exists name, url.
  pose proof (number_lookup _ 1 _ _ Hlook) as Hin.
  replace (1 + Z.of_nat (Z.to_nat (id - 1))) with id in Hin by lia.
  rewrite <- Hcat in Hin. unfold catalog_stations in Hin.
  apply list_elem_of_omap in Hin as ([key data] & Hleaf & Hsome).
  cbn [fst snd] in Hsome. destruct data as [|?|i u]; try done.
  injection Hsome as -> -> ->.
  destruct (leaf_is_reachable_by_names tree Hdist' Hfree' _ Hleaf)
    as (hierarchy & items & Hall & Hres & Hget).
  cbn [fst snd] in Hget. split.
  - unfold by_id. cbn [stations_by_id].
    rewrite lookup_enter_number, decide_True by lia. by rewrite Hlook.
  - destruct hierarchy as [|category rest].
    + left. injection Hres as <-. cbn [getitem]. by rewrite Hget.
    + right. exists (join_path (category :: rest)), items. split; [|done].
      unfold by_hierarchy. cbn [stations]. by rewrite split_join_path.
Qed.

End Reachable.

Lemma indexed_station_is_reachable_witness :
  ∃ name url,
    by_id example_source 2 = Ok (name, url) ∧
    (getitem (stations example_source) name = Ok (Tup 2 url) ∨
     ∃ category items,
       by_hierarchy example_source category = Ok (Dict items) ∧
       dict_get items name = Some (Tup 2 url)).
Proof.
  apply (indexed_station_is_reachable example_config fresh_source 2).
  - reflexivity.
  - vm_compute. reflexivity.
  - vm_compute. reflexivity.
  - vm_compute. split; discriminate.
Defined.
